(** * server.py: GitHub App installation and OAuth linking flow

    A shallow embedding of the linking handshake of [server.py]: the signed
    state token ([generate_state_token], [decode_state_token]), the
    installation ownership check ([user_owns_installation]), the code
    exchange ([exchange_code_for_user_token]) and the callback handler
    ([github_callback]) that ties them together and writes the in-memory
    directory [INSTALLATIONS_DB]; and of the pages that read it
    ([index_page], [list_files_in_repo]) with the installation-token and
    repository requests behind them. The markup of a page is not
    reproduced: a page is the template it comes from and the values
    interpolated into it.

    Conventions of the embedding.
    - [time.time()] is a rational number of seconds ([Q]); Python's [int()]
      on it truncates toward zero ([py_int]).
    - Raised exceptions are values of [exn]; a handler is a computation in
      the state-and-exception monad [M] over [world] (the directory, the log
      of outbound HTTP calls, standard output).
    - The two external libraries are modelled by what the server consumes
      from them: PyJWT in [Module jwt] (parametric in the HS256 primitive),
      httpx in [Module httpx] (requests answered by an oracle, which may
      also fail in transport). *)

From Stdlib Require Import ZArith QArith Lqa Ascii String List Sorted Permutation.
From stdpp Require Import base option list gmap strings pretty.

Local Open Scope Z_scope.
Local Open Scope string_scope.

(** ** Python values *)

(** The JSON scalars the server converts with [str()]: installation ids
    arrive as integers in the listing and as strings in the query. *)
Inductive pyval :=
  | PyInt (n : Z)
  | PyStr (s : string).

(** [str(v)]: the decimal numeral of an integer, a string unchanged. *)
Definition py_str (v : pyval) : string :=
  match v with
  | PyInt n => pretty n
  | PyStr s => s
  end.

(** [v == w] on these values: an integer never equals a string. *)
Definition py_eq (v w : pyval) : bool :=
  match v, w with
  | PyInt n, PyInt m => Z.eqb n m
  | PyStr s, PyStr t => String.eqb s t
  | _, _ => false
  end.

(** [int(x)] on a float: truncation toward zero. *)
Definition py_int (x : Q) : Z := Z.quot (Qnum x) (Zpos (Qden x)).

(** Truthiness of an optional string: [None] and the empty string are falsy.
    [truthy_str o] is [Some s] exactly when [not o] is false. *)
Definition truthy_str (o : option string) : option string :=
  match o with
  | Some s => if String.eqb s "" then None else Some s
  | None => None
  end.

(** ** Exceptions and results *)

(** Transport failures raised by the HTTP client; a timeout is one of them. *)
Inductive httpx_error :=
  | TimeoutException
  | ConnectError.

Inductive exn :=
  | HTTPException (status_code : Z) (detail : string)
  | KeyError (key : string)
  | TransportError (e : httpx_error).

Inductive result (A : Type) :=
  | Return (a : A)
  | Raise (e : exn).
Arguments Return {A} a.
Arguments Raise {A} e.

(** ** PyJWT, as used by the server *)

Module jwt.

(** The JOSE header. *)
Record header := { alg : string; typ : string }.

(** The claims set, restricted to the two claims the server writes; a
    decoded payload may lack either. The model is exact on the tokens the
    server issues. PyJWT also validates [nbf], [iat] and [aud] when a signed
    payload carries them; they are not modelled, so on signed tokens from
    elsewhere the model accepts where the library would go on to check
    more: what the model rejects, the library rejects. *)
Record payload := { account_id : option string; exp : option Z }.

(** A token string, seen through PyJWT's segment parser: either it splits
    into three segments that decode to a header, a payload and signature
    bytes ([Compact]), or it does not ([Malformed], with the raw text). *)
Inductive token :=
  | Malformed (raw : string)
  | Compact (h : header) (p : payload) (signature : string).

Inductive PyJWTError :=
  | DecodeError
  | InvalidAlgorithmError
  | InvalidSignatureError
  | ExpiredSignatureError.

(** [not token] for a token string: only the empty string is falsy. *)
Definition is_empty (t : token) : bool :=
  match t with
  | Malformed raw => String.eqb raw ""
  | Compact _ _ _ => false
  end.

Section Codec.
(** HMAC-SHA256 of the signing input (header and payload segments) under
    a key. Nothing is assumed about it. *)
Variable hmac_sha256 : string -> header * payload -> string.

(** [jwt.encode(payload, key, algorithm=alg)]. *)
Definition encode (p : payload) (key : string) (algorithm : string) : token :=
  let h := {| alg := algorithm; typ := "JWT" |} in
  Compact h p (hmac_sha256 key (h, p)).

(** [jwt.decode(token, key, algorithms=algorithms)] at clock reading
    [now]: segments, then algorithm, then signature, then [exp] (expired
    when [exp <= now], no leeway). HS256 is the one algorithm modelled: a
    header that names another one is rejected whatever [algorithms] holds,
    so the model is that of the server's call, whose allow-list is
    [[HS256]], and says nothing of calls with a longer list. *)
Definition decode (t : token) (key : string) (algorithms : list string)
    (now : Q) : payload + PyJWTError :=
  match t with
  | Malformed _ => inr DecodeError
  | Compact h p signature =>
      if negb (bool_decide (alg h ∈ algorithms) && String.eqb (alg h) "HS256")
      then inr InvalidAlgorithmError
      else if negb (String.eqb signature (hmac_sha256 key (h, p)))
      then inr InvalidSignatureError
      else match exp p with
           | Some e => if Qle_bool (inject_Z e) now
                       then inr ExpiredSignatureError
                       else inl p
           | None => inl p
           end
  end.
End Codec.

End jwt.

(** ** The state token (server.py, lines 15-48) *)

Definition JWT_SECRET : string := "...".
Definition JWT_ALGORITHM : string := "HS256".

Section StateToken.
Variable hmac_sha256 : string -> jwt.header * jwt.payload -> string.

(** [generate_state_token(account_id)], with [time.time()] reading [now]. *)
Definition generate_state_token (account_id : string) (now : Q) : jwt.token :=
  let payload := {| jwt.account_id := Some account_id;
                    jwt.exp := Some (py_int now + 300) |} in
  let token := jwt.encode hmac_sha256 payload JWT_SECRET JWT_ALGORITHM in
  token.

(** [decode_state_token(token)] at clock reading [now]. The subscript
    [payload["account_id"]] sits inside the [try]; the [except] clauses
    catch the JWT errors only. *)
Definition decode_state_token (token : jwt.token) (now : Q) : result string :=
  match jwt.decode hmac_sha256 token JWT_SECRET [JWT_ALGORITHM] now with
  | inl payload =>
      match jwt.account_id payload with
      | Some account_id => Return account_id
      | None => Raise (KeyError "account_id")
      end
  | inr jwt.ExpiredSignatureError =>
      Raise (HTTPException 400 "State token has expired.")
  | inr _ =>
      Raise (HTTPException 400 "Invalid state token.")
  end.
End StateToken.

(** ** httpx, as used by the server *)

Module httpx.

Inductive method := GET | POST.

(** A form field is a string; the [state] field carries the token. *)
Inductive form_value :=
  | FormStr (s : string)
  | FormToken (t : jwt.token).

Record Request := {
  meth : method;
  url : string;
  headers : list (string * string);
  data : list (string * form_value)
}.

(** An entry of the installations listing: [{"id": 12345, ...}]. *)
Record installation := { id : pyval }.

(** An entry of the repositories listing. *)
Record repository := { full_name : string }.

(** The JSON object of a response body, restricted to the keys the server
    reads; [None] is an absent key. *)
Record json_object := {
  access_token : option string;
  installations : option (list installation);
  token : option string;
  repositories : option (list repository)
}.

Record Response := {
  status_code : Z;
  text : string;
  json : json_object
}.

End httpx.

(** ** The handler monad *)

(** The process state a handler can touch. *)
Record world := {
  INSTALLATIONS_DB : gmap string string;
  outbound : list httpx.Request;
  stdout : list string
}.

Definition M (A : Type) : Type := world -> result A * world.

Definition ret {A} (a : A) : M A := fun w => (Return a, w).

Definition raise {A} (e : exn) : M A := fun w => (Raise e, w).

Definition bind {A B} (m : M A) (k : A -> M B) : M B :=
  fun w =>
    match m w with
    | (Return a, w') => k a w'
    | (Raise e, w') => (Raise e, w')
    end.

Definition lift {A} (r : result A) : M A := fun w => (r, w).

Notation "'let*' x ':=' m 'in' k" := (bind m (fun x => k))
  (at level 10, x name, m at level 100, k at level 200).

(** The world after one more outbound request has been sent. *)
Definition record_call (req : httpx.Request) (w : world) : world :=
  {| INSTALLATIONS_DB := INSTALLATIONS_DB w;
     outbound := outbound w ++ [req];
     stdout := stdout w |}.

(** [INSTALLATIONS_DB[key] = value]. *)
Definition db_set (key value : string) : M unit :=
  fun w =>
    (Return tt,
     {| INSTALLATIONS_DB := <[key := value]> (INSTALLATIONS_DB w);
        outbound := outbound w;
        stdout := stdout w |}).

(** [print(line)]. *)
Definition print (line : string) : M unit :=
  fun w =>
    (Return tt,
     {| INSTALLATIONS_DB := INSTALLATIONS_DB w;
        outbound := outbound w;
        stdout := stdout w ++ [line] |}).

(** ** The server (server.py, lines 158-201 and 241-344) *)

Definition GH_CLIENT_ID : string := "...".
Definition GH_CLIENT_SECRET : string := "...".

Inductive Response :=
  | RedirectResponse (url : string).

(** The query parameters the callback reads with [query_params.get]. *)
Record Request := {
  query_code : option string;
  query_installation_id : option string;
  query_state : option jwt.token
}.

(** [not state_token] is false: the parameter is present and non-empty. *)
Definition truthy_token (o : option jwt.token) : option jwt.token :=
  match o with
  | Some t => if jwt.is_empty t then None else Some t
  | None => None
  end.

Section Server.
Variable hmac_sha256 : string -> jwt.header * jwt.payload -> string.

(** The external authority: the answer to each request, or a transport
    failure of the client. *)
Variable github : httpx.Request -> httpx.Response + httpx_error.

(** One call through [httpx.AsyncClient()]: the request is logged, then
    answered, or the client's exception is raised. No call site passes a
    timeout or catches the exception. *)
Definition client_request (req : httpx.Request) : M httpx.Response :=
  fun w =>
    match github req with
    | inl resp => (Return resp, record_call req w)
    | inr e => (Raise (TransportError e), record_call req w)
    end.

Definition client_post (url : string) (headers : list (string * string))
    (data : list (string * httpx.form_value)) : M httpx.Response :=
  client_request {| httpx.meth := httpx.POST; httpx.url := url;
                    httpx.headers := headers; httpx.data := data |}.

Definition client_get (url : string) (headers : list (string * string))
    : M httpx.Response :=
  client_request {| httpx.meth := httpx.GET; httpx.url := url;
                    httpx.headers := headers; httpx.data := [] |}.

(** [exchange_code_for_user_token(code, state)]. *)
Definition exchange_code_for_user_token (code : string) (state : jwt.token)
    : M (option string) :=
  let token_url := "https://github.com/login/oauth/access_token" in
  let headers := [("Accept", "application/json")] in
  let data := [("client_id", httpx.FormStr GH_CLIENT_ID);
               ("client_secret", httpx.FormStr GH_CLIENT_SECRET);
               ("code", httpx.FormStr code);
               ("state", httpx.FormToken state)] in
  let* resp := client_post token_url headers data in
  let resp_data := httpx.json resp in
  let access_token := httpx.access_token resp_data in
  match truthy_str access_token with
  | None => ret None
  | Some access_token => ret (Some access_token)
  end.

(** The [for inst in installations] loop of [user_owns_installation]. *)
Fixpoint user_owns_installation_loop (installations : list httpx.installation)
    (installation_id : pyval) : bool :=
  match installations with
  | [] => false
  | inst :: rest =>
      if String.eqb (py_str (httpx.id inst)) (py_str installation_id)
      then true
      else user_owns_installation_loop rest installation_id
  end.

(** [user_owns_installation(user_token, installation_id)]. *)
Definition user_owns_installation (user_token : string) (installation_id : pyval)
    : M bool :=
  let url := "https://api.github.com/user/installations" in
  let headers := [("Accept", "application/vnd.github+json");
                  ("Authorization", "token " ++ user_token)] in
  let* resp := client_get url headers in
  if negb (Z.eqb (httpx.status_code resp) 200) then ret false
  else
    let data := httpx.json resp in
    let installations := default [] (httpx.installations data) in
    ret (user_owns_installation_loop installations installation_id).

(** [github_callback(request)] at clock reading [now]. *)
Definition github_callback (request : Request) (now : Q) : M Response :=
  let code := query_code request in
  let installation_id := query_installation_id request in
  let state_token := query_state request in
  match truthy_str code with
  | None => raise (HTTPException 400 "Missing OAuth code.")
  | Some code =>
  match truthy_str installation_id with
  | None => raise (HTTPException 400 "Missing installation_id.")
  | Some installation_id =>
  match truthy_token state_token with
  | None => raise (HTTPException 400 "Missing state token.")
  | Some state_token =>
      let* account_id := lift (decode_state_token hmac_sha256 state_token now) in
      let* user_token := exchange_code_for_user_token code state_token in
      match user_token with
      | None =>
          raise (HTTPException 400 "Failed to exchange code for user token.")
      | Some user_token =>
          let* owns := user_owns_installation user_token (PyStr installation_id) in
          if negb owns
          then raise (HTTPException 403
                        "Installation is not associated with this user.")
          else
            let* _ := db_set account_id installation_id in
            ret (RedirectResponse "/setup")
      end
  end end end.

(** [get_installation_token(app_jwt, installation_id)]. *)
Definition get_installation_token (app_jwt : string) (installation_id : pyval)
    : M (option string) :=
  let url := "https://api.github.com/app/installations/"
             ++ py_str installation_id ++ "/access_tokens" in
  let headers := [("Accept", "application/vnd.github+json");
                  ("Authorization", "Bearer " ++ app_jwt)] in
  let* resp := client_post url headers [] in
  if Z.eqb (httpx.status_code resp) 201
  then ret (httpx.token (httpx.json resp))
  else
    let* _ := print ("Error getting installation token: " ++ httpx.text resp) in
    ret None.

(** [list_installation_repos(app_jwt, installation_id)]. *)
Definition list_installation_repos (app_jwt : string) (installation_id : pyval)
    : M (list httpx.repository) :=
  let* installation_token := get_installation_token app_jwt installation_id in
  match truthy_str installation_token with
  | None => raise (HTTPException 400 "Failed to obtain installation token.")
  | Some installation_token =>
      let repos_url := "https://api.github.com/installation/repositories" in
      let headers := [("Accept", "application/vnd.github+json");
                      ("Authorization", "Bearer " ++ installation_token)] in
      let* resp := client_get repos_url headers in
      if negb (Z.eqb (httpx.status_code resp) 200)
      then raise (HTTPException (httpx.status_code resp)
                    ("Error fetching repositories: " ++ httpx.text resp))
      else
        let data := httpx.json resp in
        match httpx.repositories data with
        | Some repositories => ret repositories
        | None => raise (KeyError "repositories")
        end
  end.
End Server.

(** ** Scenarios: concrete instances for running the handlers *)

(** A concrete keyed tag over the signing input. The results below hold for
    every function in its place; this one only makes examples run. *)
Definition example_hmac (key : string) (msg : jwt.header * jwt.payload) : string :=
  key ++ "|" ++ jwt.alg (fst msg) ++ "|" ++ jwt.typ (fst msg)
      ++ "|" ++ default "" (jwt.account_id (snd msg))
      ++ "|" ++ from_option pretty "" (jwt.exp (snd msg)).

Definition empty_json : httpx.json_object :=
  {| httpx.access_token := None; httpx.installations := None;
     httpx.token := None; httpx.repositories := None |}.

(** An authority that hands out the credential [u-tok] for any code and
    answers the listing request with [listing]. *)
Definition approving_github (listing : list httpx.installation)
    (req : httpx.Request) : httpx.Response + httpx_error :=
  match httpx.meth req with
  | httpx.POST =>
      inl {| httpx.status_code := 200; httpx.text := "";
             httpx.json := {| httpx.access_token := Some "u-tok";
                              httpx.installations := None;
                              httpx.token := None;
                              httpx.repositories := None |} |}
  | httpx.GET =>
      inl {| httpx.status_code := 200; httpx.text := "";
             httpx.json := {| httpx.access_token := None;
                              httpx.installations := Some listing;
                              httpx.token := None;
                              httpx.repositories := None |} |}
  end.

(** An authority that answers every request with the given status and an
    empty JSON object. *)
Definition status_github (status : Z) (req : httpx.Request)
    : httpx.Response + httpx_error :=
  inl {| httpx.status_code := status; httpx.text := "";
         httpx.json := empty_json |}.

(** An authority no request reaches in time. *)
Definition timeout_github (req : httpx.Request) : httpx.Response + httpx_error :=
  inr TimeoutException.


(** The listing of the end-to-end scenario: one installation, id 999. *)
Definition listing_999 : list httpx.installation := [{| httpx.id := PyInt 999 |}].

Definition empty_world : world :=
  {| INSTALLATIONS_DB := ∅; outbound := []; stdout := [] |}.

(** The callback of the end-to-end scenario: code [abc], installation [999]
    and a state token issued for [acct-1] at time 1000. *)
Definition scenario_request (code : string) : Request :=
  {| query_code := Some code;
     query_installation_id := Some "999";
     query_state := Some (generate_state_token example_hmac "acct-1" 1000) |}.

(** ** The requests the server sends *)

Definition access_token_request (code : string) (state : jwt.token) : httpx.Request :=
  {| httpx.meth := httpx.POST;
     httpx.url := "https://github.com/login/oauth/access_token";
     httpx.headers := [("Accept", "application/json")];
     httpx.data := [("client_id", httpx.FormStr GH_CLIENT_ID);
                    ("client_secret", httpx.FormStr GH_CLIENT_SECRET);
                    ("code", httpx.FormStr code);
                    ("state", httpx.FormToken state)] |}.

Definition user_installations_request (user_token : string) : httpx.Request :=
  {| httpx.meth := httpx.GET;
     httpx.url := "https://api.github.com/user/installations";
     httpx.headers := [("Accept", "application/vnd.github+json");
                       ("Authorization", "token " ++ user_token)];
     httpx.data := [] |}.

Definition installation_token_request (app_jwt : string) (installation_id : pyval)
    : httpx.Request :=
  {| httpx.meth := httpx.POST;
     httpx.url := "https://api.github.com/app/installations/"
                  ++ py_str installation_id ++ "/access_tokens";
     httpx.headers := [("Accept", "application/vnd.github+json");
                       ("Authorization", "Bearer " ++ app_jwt)];
     httpx.data := [] |}.

Definition repositories_request (installation_token : string) : httpx.Request :=
  {| httpx.meth := httpx.GET;
     httpx.url := "https://api.github.com/installation/repositories";
     httpx.headers := [("Accept", "application/vnd.github+json");
                       ("Authorization", "Bearer " ++ installation_token)];
     httpx.data := [] |}.

(** The details of the three "missing parameter" errors of the callback. *)
Definition missing_details : list string :=
  ["Missing OAuth code."; "Missing installation_id."; "Missing state token."].

(** The outcome is an HTTP error raised by the handler, with a status code
    of its own. *)
Definition is_http_error {A} (r : result A) : Prop :=
  exists status detail, r = Raise (HTTPException status detail).

(** ** The pages (server.py, lines 51-155, 318-329 and 347-445) *)

Definition GITHUB_APP_ID : string := "...".
Definition GITHUB_PRIVATE_KEY : string := "...".

(** The claims of the App-level token: issued-at, expiry, issuer. *)
Record app_payload := { app_iat : Z; app_exp : Z; app_iss : string }.

(** An entry of a repository's contents listing, with the keys
    [list_files_in_repo] reads. *)
Record content_item := {
  item_type : string;
  item_name : string;
  item_size : Z;
  item_html_url : string
}.

(** The two icons of the files page: the one for [type == "dir"] and the
    one for everything else. *)
Inductive icon := FolderIcon | FileIcon.

(** One [file-item] block of the files page: the values interpolated into
    it. *)
Record file_row := {
  row_icon : icon;
  row_href : string;
  row_name : string;
  row_size : string
}.

(** An HTML response, named by its template and the values interpolated
    into it; the fixed markup is not reproduced. [InstallPage] is the page
    whose button links to
    [https://github.com/apps//installations/new?state=<state_token>]. *)
Inductive HTMLResponse :=
  | InstallPage (account_id : string) (state_token : jwt.token)
  | ReposPage (account_id installation_id : string) (repo_options : string)
  | FilesPage (owner repo : string) (files : list file_row).

(** [INSTALLATIONS_DB.get(key)]. *)
Definition db_get (key : string) : M (option string) :=
  fun w => (Return (INSTALLATIONS_DB w !! key), w).

Definition newline : string := String "010"%char "".
Definition dquote : string := String "034"%char "".

(** [sep.join(l)]. *)
Fixpoint py_join (sep : string) (l : list string) : string :=
  match l with
  | [] => ""
  | [s] => s
  | s :: rest => s ++ sep ++ py_join sep rest
  end.

(** One [<option>] line of the repositories page. *)
Definition repo_option (repo : httpx.repository) : string :=
  "<option value=" ++ dquote ++ httpx.full_name repo ++ dquote ++ ">"
    ++ httpx.full_name repo ++ "</option>".

(** [k1 <= k2] on sort keys [(bool, str)]: tuples compare component by
    component, [False < True], strings by code point. *)
Definition key_le (k1 k2 : bool * string) : bool :=
  match fst k1, fst k2 with
  | false, true => true
  | true, false => false
  | _, _ => String.leb (snd k1) (snd k2)
  end.

Section Sorting.
Context {A : Type}.
Variable key : A -> bool * string.

(** [x] goes before the first element whose key is not smaller. *)
Fixpoint sorted_insert (x : A) (l : list A) : list A :=
  match l with
  | [] => [x]
  | y :: l' =>
      if key_le (key x) (key y) then x :: y :: l' else y :: sorted_insert x l'
  end.

(** [sorted(l, key=key)]: the stable sort by key, computed by insertion
    from the right, so that equal keys keep their order in [l]. *)
Definition py_sorted (l : list A) : list A := foldr sorted_insert [] l.
End Sorting.

(** The values one contents entry contributes to the files page. *)
Definition render_item (item : content_item) : file_row :=
  let icon := if String.eqb (item_type item) "dir" then FolderIcon else FileIcon in
  let size := if String.eqb (item_type item) "file"
              then "(" ++ pretty (item_size item) ++ " bytes)"
              else "" in
  {| row_icon := icon; row_href := item_html_url item;
     row_name := item_name item; row_size := size |}.

Definition contents_request (owner repo installation_token : string)
    : httpx.Request :=
  {| httpx.meth := httpx.GET;
     httpx.url := "https://api.github.com/repos/" ++ owner ++ "/" ++ repo
                  ++ "/contents";
     httpx.headers := [("Accept", "application/vnd.github+json");
                       ("Authorization", "Bearer " ++ installation_token)];
     httpx.data := [] |}.

Section Pages.
Variable hmac_sha256 : string -> jwt.header * jwt.payload -> string.
Variable github : httpx.Request -> httpx.Response + httpx_error.

(** [jwt.encode(payload, key, algorithm="RS256")] for a private key the
    signer accepts. Nothing is assumed about it. *)
Variable rs256_encode : app_payload -> string -> string.

(** [str.lower]. Nothing is assumed about it. *)
Variable str_lower : string -> string.

(** [resp.json()] of a contents response: the array of entries. *)
Variable contents_json : httpx.Response -> list content_item.

(** [str(ACCOUNT_ID)], the account of this process. *)
Variable ACCOUNT_ID : string.

(** [generate_app_jwt()], with [time.time()] reading [now]. *)
Definition generate_app_jwt (now : Q) : string :=
  let now := py_int now in
  let exp := now + 10 * 60 in
  let payload := {| app_iat := now; app_exp := exp; app_iss := GITHUB_APP_ID |} in
  let encoded_jwt := rs256_encode payload GITHUB_PRIVATE_KEY in
  encoded_jwt.

(** [index_page()] at clock reading [now]. *)
Definition index_page (now : Q) : M HTMLResponse :=
  let account_id := ACCOUNT_ID in
  let* installation_id := db_get account_id in
  match truthy_str installation_id with
  | None =>
      let state_token := generate_state_token hmac_sha256 account_id now in
      ret (InstallPage account_id state_token)
  | Some installation_id =>
      let app_jwt := generate_app_jwt now in
      let* repos := list_installation_repos github app_jwt (PyStr installation_id) in
      let repo_options := py_join newline (map repo_option repos) in
      ret (ReposPage account_id installation_id repo_options)
  end.

(** The sort key of the files page:
    [(x["type"] != "dir", x["name"].lower())]. *)
Definition contents_key (item : content_item) : bool * string :=
  (negb (String.eqb (item_type item) "dir"), str_lower (item_name item)).

(** [list_files_in_repo(owner, repo, installation_id)] at clock reading
    [now]. *)
Definition list_files_in_repo (owner repo : string) (installation_id : Z)
    (now : Q) : M HTMLResponse :=
  let app_jwt := generate_app_jwt now in
  let* installation_token :=
    get_installation_token github app_jwt (PyInt installation_id) in
  match truthy_str installation_token with
  | None => raise (HTTPException 400 "Failed to obtain installation token.")
  | Some installation_token =>
      let contents_url := "https://api.github.com/repos/" ++ owner ++ "/" ++ repo
                          ++ "/contents" in
      let headers := [("Accept", "application/vnd.github+json");
                      ("Authorization", "Bearer " ++ installation_token)] in
      let* resp := client_get github contents_url headers in
      if negb (Z.eqb (httpx.status_code resp) 200)
      then raise (HTTPException (httpx.status_code resp)
                    ("Error fetching repo contents: " ++ httpx.text resp))
      else
        let contents := contents_json resp in
        ret (FilesPage owner repo
               (map render_item (py_sorted contents_key contents)))
  end.
End Pages.

(** ** Scenarios for the pages *)

(** A concrete App-token encoder, to make examples run. *)
Definition example_rs256 (p : app_payload) (key : string) : string :=
  key ++ "|" ++ app_iss p ++ "|" ++ pretty (app_iat p) ++ "|" ++ pretty (app_exp p).

(** Lower-casing of the ASCII letters, to make examples run. *)
Definition ascii_lower (c : ascii) : ascii :=
  let n := N_of_ascii c in
  if ((65 <=? n) && (n <=? 90))%N then ascii_of_N (n + 32) else c.

Fixpoint example_lower (s : string) : string :=
  match s with
  | EmptyString => EmptyString
  | String c s' => String (ascii_lower c) (example_lower s')
  end.

(** A contents answer: two files and two directories, out of order. *)
Definition example_contents : list content_item :=
  [ {| item_type := "file"; item_name := "b.txt"; item_size := 12;
       item_html_url := "https://github.com/o/r/blob/main/b.txt" |};
    {| item_type := "dir"; item_name := "src"; item_size := 0;
       item_html_url := "https://github.com/o/r/tree/main/src" |};
    {| item_type := "file"; item_name := "README.md"; item_size := 40;
       item_html_url := "https://github.com/o/r/blob/main/README.md" |};
    {| item_type := "dir"; item_name := "Docs"; item_size := 0;
       item_html_url := "https://github.com/o/r/tree/main/Docs" |} ].

Definition example_contents_json (resp : httpx.Response) : list content_item :=
  example_contents.

(** An authority for the installation endpoints: every POST is answered
    with [token_status] and the token [i-tok], every GET with [get_status],
    the body [body] and one repository. *)
Definition installation_github (token_status get_status : Z)
    (req : httpx.Request) : httpx.Response + httpx_error :=
  match httpx.meth req with
  | httpx.POST =>
      inl {| httpx.status_code := token_status; httpx.text := "token-body";
             httpx.json := {| httpx.access_token := None;
                              httpx.installations := None;
                              httpx.token := Some "i-tok";
                              httpx.repositories := None |} |}
  | httpx.GET =>
      inl {| httpx.status_code := get_status; httpx.text := "body";
             httpx.json := {| httpx.access_token := None;
                              httpx.installations := None;
                              httpx.token := None;
                              httpx.repositories :=
                                Some [{| httpx.full_name := "o/r" |}] |} |}
  end.


(** An authority whose token endpoint answers 500 and still hands out the
    credential [u-tok]. *)
Definition erring_token_github (req : httpx.Request)
    : httpx.Response + httpx_error :=
  inl {| httpx.status_code := 500; httpx.text := "";
         httpx.json := {| httpx.access_token := Some "u-tok";
                          httpx.installations := None;
                          httpx.token := None;
                          httpx.repositories := None |} |}.

(** The scenario callback for another account and installation. *)
Definition second_request : Request :=
  {| query_code := Some "def";
     query_installation_id := Some "7";
     query_state := Some (generate_state_token example_hmac "acct-2" 1005) |}.

(** An authority for a linked account with two repositories: every POST
    is answered 201 with the token [i-tok], every GET 200 with the
    repositories [o/r] and [o/s]. *)
Definition two_repos_github (req : httpx.Request)
    : httpx.Response + httpx_error :=
  match httpx.meth req with
  | httpx.POST => installation_github 201 200 req
  | httpx.GET =>
      inl {| httpx.status_code := 200; httpx.text := "body";
             httpx.json := {| httpx.access_token := None;
                              httpx.installations := None;
                              httpx.token := None;
                              httpx.repositories :=
                                Some [{| httpx.full_name := "o/r" |};
                                      {| httpx.full_name := "o/s" |}] |} |}
  end.

(** The scenario callback once more, for the same account and the
    installation 7. *)
Definition relink_request : Request :=
  {| query_code := Some "def";
     query_installation_id := Some "7";
     query_state := Some (generate_state_token example_hmac "acct-1" 1000) |}.

(** ** Reading a page back *)

(** [c in s]. *)
Fixpoint has_char (c : ascii) (s : string) : bool :=
  match s with
  | EmptyString => false
  | String c' s' => Ascii.eqb c' c || has_char c s'
  end.

(** [s.split(sep)] for a one-character separator. *)
Fixpoint py_split (sep : ascii) (s : string) : list string :=
  match s with
  | EmptyString => [EmptyString]
  | String c s' =>
      if Ascii.eqb c sep then EmptyString :: py_split sep s'
      else match py_split sep s' with
           | first :: rest => String c first :: rest
           | [] => [String c EmptyString]
           end
  end.

(** ** Sequences of callbacks *)

(** A callback still to come: the authority that will answer it, its
    request, the clock reading. *)
Definition later_callback : Type :=
  (httpx.Request -> httpx.Response + httpx_error) * Request * Q.

(** The world after the callbacks [steps], run in order from [w]. *)
Fixpoint run_callbacks
    (hmac_sha256 : string -> jwt.header * jwt.payload -> string)
    (steps : list later_callback) (w : world) : world :=
  match steps with
  | [] => w
  | (github, request, now) :: rest =>
      run_callbacks hmac_sha256 rest
        (snd (github_callback hmac_sha256 github request now w))
  end.

(** Every installation id in the directory is a non-empty string. *)
Definition db_values_nonempty (db : gmap string string) : Prop :=
  forall key value, db !! key = Some value -> value <> "".

(** * Properties *)

(** ** Arithmetic of the clock *)

Lemma py_int_le_succ (t : Q) : (inject_Z (py_int t) <= t + 1)%Q.
Proof.
  destruct t as [n d]. unfold py_int, Qle, Qplus, inject_Z. simpl.
  pose proof (Z.quot_rem' n (Z.pos d)) as Hqr.
  pose proof (Z.rem_bound_abs n (Z.pos d) ltac:(lia)) as Hb.
  nia.
Qed.

Lemma py_int_gt_pred (t : Q) : (t < inject_Z (py_int t) + 1)%Q.
Proof.
  destruct t as [n d]. unfold py_int, Qlt, Qplus, inject_Z. simpl.
  pose proof (Z.quot_rem' n (Z.pos d)) as Hqr.
  pose proof (Z.rem_bound_abs n (Z.pos d) ltac:(lia)) as Hb.
  nia.
Qed.

Lemma Qle_bool_false (x y : Q) : (y < x)%Q -> Qle_bool x y = false.
Proof.
  intros Hlt. destruct (Qle_bool x y) eqn:E; [|reflexivity].
  apply Qle_bool_iff in E. exfalso. eapply Qlt_not_le; eassumption.
Qed.

(** ** The state token *)

Section StateTokenProperties.
Variable hmac_sha256 : string -> jwt.header * jwt.payload -> string.

Local Abbreviation generate := (generate_state_token hmac_sha256).
Local Abbreviation decode := (decode_state_token hmac_sha256).

(** What PyJWT returns on a token the server signed itself. *)
Lemma jwt_decode_encode (p : jwt.payload) (now : Q) :
  jwt.decode hmac_sha256 (jwt.encode hmac_sha256 p JWT_SECRET JWT_ALGORITHM)
    JWT_SECRET [JWT_ALGORITHM] now
  = match jwt.exp p with
    | Some e => if Qle_bool (inject_Z e) now
                then inr jwt.ExpiredSignatureError else inl p
    | None => inl p
    end.
Proof.
  unfold jwt.decode, jwt.encode. cbn [jwt.alg].
  rewrite bool_decide_eq_true_2 by (unfold JWT_ALGORITHM; set_solver).
  rewrite !String.eqb_refl. reflexivity.
Qed.

(** A successful decode returns the [account_id] claim of the payload whose
    signature verified, and nothing else. *)
Lemma decode_state_token_Return (t : jwt.token) (now : Q) (a : string) :
  decode t now = Return a ->
  exists h p,
    t = jwt.Compact h p (hmac_sha256 JWT_SECRET (h, p))
    /\ jwt.account_id p = Some a.
Proof.
  unfold decode_state_token, jwt.decode.
  destruct t as [raw | h p sig]; [discriminate|].
  destruct (negb (bool_decide _ && _)); [discriminate|].
  destruct (String.eqb sig _) eqn:Esig; cbn [negb]; [|discriminate].
  apply String.eqb_eq in Esig. subst sig.
  intros Hret. exists h, p. split; [reflexivity|].
  destruct (jwt.exp p) as [e|];
    [destruct (Qle_bool (inject_Z e) now); [discriminate|]|];
    destruct (jwt.account_id p); congruence.
Qed.

(** A token that does not parse is rejected as invalid. *)
Lemma decode_state_token_malformed (raw : string) (now : Q) :
  decode (jwt.Malformed raw) now
  = Raise (HTTPException 400 "Invalid state token.").
Proof. reflexivity. Qed.

(** A token whose signature is not the tag of its header and payload is
    rejected as invalid, whatever its expiry. *)
Lemma decode_state_token_bad_signature (h : jwt.header) (p : jwt.payload)
    (sig : string) (now : Q) :
  sig <> hmac_sha256 JWT_SECRET (h, p) ->
  decode (jwt.Compact h p sig) now
  = Raise (HTTPException 400 "Invalid state token.").
Proof.
  intros Hsig. unfold decode_state_token, jwt.decode.
  destruct (negb (bool_decide _ && _)); [reflexivity|].
  apply String.eqb_neq in Hsig. rewrite Hsig. reflexivity.
Qed.

(** What [decode_state_token] does with a token [generate_state_token]
    made: the outcome depends on the clock only. *)
Lemma decode_generate (account_id : string) (issued now : Q) :
  decode (generate account_id issued) now
  = if Qle_bool (inject_Z (py_int issued + 300)) now
    then Raise (HTTPException 400 "State token has expired.")
    else Return account_id.
Proof.
  unfold decode_state_token, generate_state_token.
  rewrite jwt_decode_encode. cbn [jwt.exp jwt.account_id].
  destruct (Qle_bool _ now); reflexivity.
Qed.

(** C3. Decoding a freshly issued state token at any time strictly before
    its expiry ([int(issue time) + 300]) returns the account identifier it
    was issued for. *)
Theorem state_token_round_trip (account_id : string) (issued now : Q) :
  (now < inject_Z (py_int issued + 300))%Q ->
  decode (generate account_id issued) now = Return account_id.
Proof.
  intros Hfresh. rewrite decode_generate.
  rewrite Qle_bool_false by exact Hfresh. reflexivity.
Qed.

(** C4. A state token issued at time [T] (TTL 300 seconds) is rejected
    with HTTP 400 "State token has expired." when decoded at
    [T + 300 + 1], and decodes to its account identifier at
    [T + 300 - 1]. *)
Theorem state_token_expiry (account_id : string) (T : Q) :
  decode (generate account_id T) (T + 300 + 1)
    = Raise (HTTPException 400 "State token has expired.")
  /\ decode (generate account_id T) (T + 300 - 1) = Return account_id.
Proof.
  rewrite !decode_generate. split.
  - assert (Qle_bool (inject_Z (py_int T + 300)) (T + 300 + 1) = true) as ->.
    { apply Qle_bool_iff. rewrite inject_Z_plus.
      pose proof (py_int_le_succ T) as Hle.
      change (inject_Z 300) with 300%Q. lra. }
    reflexivity.
  - rewrite Qle_bool_false; [reflexivity|].
    rewrite inject_Z_plus. pose proof (py_int_gt_pred T) as Hlt.
    change (inject_Z 300) with 300%Q. lra.
Qed.

(** C5 (the code at the failing input). A validly signed, unexpired token
    that lacks the [account_id] claim does not fail as an invalid token:
    the [KeyError] of the subscript escapes [decode_state_token]. *)
Theorem state_token_missing_account_id (e : Z) (now : Q) :
  (now < inject_Z e)%Q ->
  decode (jwt.encode hmac_sha256
            {| jwt.account_id := None; jwt.exp := Some e |}
            JWT_SECRET JWT_ALGORITHM) now
  = Raise (KeyError "account_id").
Proof.
  intros Hfresh. unfold decode_state_token.
  rewrite jwt_decode_encode. cbn [jwt.exp jwt.account_id].
  rewrite Qle_bool_false by exact Hfresh. reflexivity.
Qed.
End StateTokenProperties.

(** ** The outbound calls *)

Lemma exchange_code_for_user_token_run github (code : string)
    (state : jwt.token) (w : world) :
  exchange_code_for_user_token github code state w
  = match github (access_token_request code state) with
    | inl resp =>
        (Return (truthy_str (httpx.access_token (httpx.json resp))),
         record_call (access_token_request code state) w)
    | inr e =>
        (Raise (TransportError e),
         record_call (access_token_request code state) w)
    end.
Proof.
  unfold exchange_code_for_user_token, bind, client_post, client_request.
  fold (access_token_request code state).
  destruct (github (access_token_request code state)) as [resp|e]; [|reflexivity].
  destruct (truthy_str _); reflexivity.
Qed.

Lemma user_owns_installation_run github (user_token : string)
    (installation_id : pyval) (w : world) :
  user_owns_installation github user_token installation_id w
  = match github (user_installations_request user_token) with
    | inl resp =>
        (Return
           (if negb (Z.eqb (httpx.status_code resp) 200) then false
            else user_owns_installation_loop
                   (default [] (httpx.installations (httpx.json resp)))
                   installation_id),
         record_call (user_installations_request user_token) w)
    | inr e =>
        (Raise (TransportError e),
         record_call (user_installations_request user_token) w)
    end.
Proof.
  unfold user_owns_installation, bind, client_get, client_request.
  fold (user_installations_request user_token).
  destruct (github (user_installations_request user_token)) as [resp|e];
    [|reflexivity].
  destruct (negb _); reflexivity.
Qed.

Lemma user_owns_installation_loop_true (installations : list httpx.installation)
    (installation_id : pyval) :
  user_owns_installation_loop installations installation_id = true
  <-> exists inst, inst ∈ installations
                 /\ py_str (httpx.id inst) = py_str installation_id.
Proof.
  induction installations as [|inst rest IH]; simpl.
  - split; [discriminate|]. intros (inst & Hin & _). inversion Hin.
  - destruct (String.eqb_spec (py_str (httpx.id inst)) (py_str installation_id))
      as [Heq|Hne].
    + split; [|reflexivity]. intros _. exists inst. split; [left|exact Heq].
    + rewrite IH. split.
      * intros (i & Hin & Hi). exists i. split; [right; exact Hin|exact Hi].
      * intros (i & Hin & Hi). apply elem_of_cons in Hin as [->|Hin];
          [contradiction|]. exists i. split; assumption.
Qed.

(** C1. When the authority answers the listing request, the ownership
    check returns a boolean, never an error, and it is true exactly when the
    status is 200 and the claimed installation id is the id of some listed
    installation, the two identifiers being compared whole, in the text
    [str()] gives them; in particular it is false on a non-success status,
    on an empty listing and when the id is absent from the listing. *)
Theorem user_owns_installation_by_str github (user_token : string)
    (installation_id : pyval) (resp : httpx.Response) (w : world) :
  github (user_installations_request user_token) = inl resp ->
  exists owns,
    fst (user_owns_installation github user_token installation_id w) = Return owns
    /\ (owns = true
        <-> httpx.status_code resp = 200
            /\ exists inst,
                 inst ∈ default [] (httpx.installations (httpx.json resp))
                 /\ py_str (httpx.id inst) = py_str installation_id)
    /\ (httpx.status_code resp <> 200 -> owns = false)
    /\ (default [] (httpx.installations (httpx.json resp)) = [] -> owns = false)
    /\ ((forall inst,
           inst ∈ default [] (httpx.installations (httpx.json resp)) ->
           py_str (httpx.id inst) <> py_str installation_id) ->
        owns = false).
Proof.
  intros Hresp. rewrite user_owns_installation_run, Hresp. cbn [fst].
  eexists. split; [reflexivity|].
  assert (forall b : bool, (b = true -> False) -> b = false) as Hfalse.
  { intros [|] H; [exfalso; apply H|]; reflexivity. }
  destruct (Z.eqb_spec (httpx.status_code resp) 200) as [H200|Hne]; cbn [negb].
  - split; [|split; [|split]].
    + rewrite user_owns_installation_loop_true. tauto.
    + intros Hne. contradiction.
    + intros Hnil. apply Hfalse. intros Htrue.
      apply user_owns_installation_loop_true in Htrue as (inst & Hin & _).
      rewrite Hnil in Hin. inversion Hin.
    + intros Hnone. apply Hfalse. intros Htrue.
      apply user_owns_installation_loop_true in Htrue as (inst & Hin & Heq).
      exact (Hnone inst Hin Heq).
  - split; [|split; [|split]]; try (intros; reflexivity).
    split; [discriminate|].
    intros [H200 _]. contradiction.
Qed.

(** C10. The ownership check compares the identifiers after [str()] on
    both sides. For a claimed id given as the decimal string of the integer
    [n]: the check is true exactly when some listed id has that decimal
    string as its [str()] form; hence it is true for every listing that
    contains an installation whose id is the integer [n], whose [str()] form
    is the claimed string although the two values are not equal as Python
    values; and a listed integer matches only if it is [n] itself. *)
Theorem user_owns_installation_int_id github (user_token : string) (n : Z)
    (resp : httpx.Response) (listing : list httpx.installation) (w : world) :
  github (user_installations_request user_token) = inl resp ->
  httpx.status_code resp = 200 ->
  httpx.installations (httpx.json resp) = Some listing ->
  (fst (user_owns_installation github user_token (PyStr (pretty n)) w)
     = Return true
   <-> exists inst, inst ∈ listing /\ py_str (httpx.id inst) = pretty n)
  /\ (fst (user_owns_installation github user_token (PyStr (pretty n)) w)
        = Return false
      <-> forall inst, inst ∈ listing -> py_str (httpx.id inst) <> pretty n)
  /\ ({| httpx.id := PyInt n |} ∈ listing ->
      fst (user_owns_installation github user_token (PyStr (pretty n)) w)
        = Return true)
  /\ (forall m, py_str (PyInt m) = pretty n -> m = n)
  /\ py_str (PyInt n) = py_str (PyStr (pretty n))
  /\ py_eq (PyInt n) (PyStr (pretty n)) = false.
Proof.
  intros Hresp H200 Hlist.
  rewrite user_owns_installation_run, Hresp, H200, Hlist.
  cbn [fst negb Z.eqb Pos.eqb]. simpl default.
  pose proof (user_owns_installation_loop_true listing (PyStr (pretty n)))
    as Hloop. simpl py_str in Hloop.
  split; [|split; [|split; [|split; [|split]]]].
  - rewrite <- Hloop. split; [intros [= H]; exact H|intros ->; reflexivity].
  - split.
    + intros [= Hfalse] inst Hin Heq.
      assert (user_owns_installation_loop listing (PyStr (pretty n)) = true)
        as Htrue by (apply Hloop; exists inst; tauto).
      congruence.
    + intros Hnone. f_equal. apply not_true_is_false. intros E.
      apply Hloop in E as (inst & Hin & Heq). destruct (Hnone inst Hin Heq).
  - intros Hin. f_equal. apply Hloop.
    exists {| httpx.id := PyInt n |}. split; [exact Hin|reflexivity].
  - intros m Heq. apply pretty_Z_inj. exact Heq.
  - reflexivity.
  - reflexivity.
Qed.

Lemma exchange_code_for_user_token_db github (code : string)
    (state : jwt.token) (w : world) :
  INSTALLATIONS_DB (snd (exchange_code_for_user_token github code state w))
  = INSTALLATIONS_DB w.
Proof.
  rewrite exchange_code_for_user_token_run.
  destruct (github _); reflexivity.
Qed.

Lemma user_owns_installation_db github (user_token : string)
    (installation_id : pyval) (w : world) :
  INSTALLATIONS_DB (snd (user_owns_installation github user_token installation_id w))
  = INSTALLATIONS_DB w.
Proof.
  rewrite user_owns_installation_run.
  destruct (github _); reflexivity.
Qed.

(** ** The callback *)

Section CallbackProperties.
Variable hmac_sha256 : string -> jwt.header * jwt.payload -> string.
Variable github : httpx.Request -> httpx.Response + httpx_error.

Local Abbreviation callback := (github_callback hmac_sha256 github).
Local Abbreviation decode := (decode_state_token hmac_sha256).
Local Abbreviation exchange := (exchange_code_for_user_token github).
Local Abbreviation owns := (user_owns_installation github).

(** A missing (or empty) parameter stops the callback at once, with the
    world untouched. *)
Lemma github_callback_missing (request : Request) (now : Q) (w : world) :
  truthy_str (query_code request) = None
  \/ truthy_str (query_installation_id request) = None
  \/ truthy_token (query_state request) = None ->
  exists detail,
    detail ∈ missing_details
    /\ callback request now w = (Raise (HTTPException 400 detail), w).
Proof.
  intros Hmiss. unfold github_callback, missing_details.
  destruct (truthy_str (query_code request)) as [code|].
  2:{ eexists. split; [|reflexivity]. repeat constructor. }
  destruct (truthy_str (query_installation_id request)) as [inst|].
  2:{ eexists. split; [|reflexivity]. repeat constructor. }
  destruct (truthy_token (query_state request)) as [st|].
  2:{ eexists. split; [|reflexivity]. repeat constructor. }
  destruct Hmiss as [H|[H|H]]; discriminate.
Qed.

(** With its three parameters present, the callback is the sequence decode,
    exchange, ownership check, directory write. *)
Lemma github_callback_present (request : Request) (now : Q) (w : world)
    (code installation_id : string) (state_token : jwt.token) :
  truthy_str (query_code request) = Some code ->
  truthy_str (query_installation_id request) = Some installation_id ->
  truthy_token (query_state request) = Some state_token ->
  callback request now w
  = match decode state_token now with
    | Raise e => (Raise e, w)
    | Return account_id =>
        match exchange code state_token w with
        | (Raise e, w1) => (Raise e, w1)
        | (Return None, w1) =>
            (Raise (HTTPException 400 "Failed to exchange code for user token."),
             w1)
        | (Return (Some user_token), w1) =>
            match owns user_token (PyStr installation_id) w1 with
            | (Raise e, w2) => (Raise e, w2)
            | (Return false, w2) =>
                (Raise (HTTPException 403
                          "Installation is not associated with this user."),
                 w2)
            | (Return true, w2) =>
                (Return (RedirectResponse "/setup"),
                 snd (db_set account_id installation_id w2))
            end
        end
    end.
Proof.
  intros Hcode Hinst Hstate. unfold github_callback.
  rewrite Hcode, Hinst, Hstate. unfold bind at 1. unfold lift.
  destruct (decode state_token now) as [account_id|e]; [|reflexivity].
  unfold bind at 1.
  destruct (exchange code state_token w) as [[[user_token|]|e] w1];
    try reflexivity.
  unfold bind at 1.
  destruct (owns user_token (PyStr installation_id) w1) as [[[|]|e] w2];
    reflexivity.
Qed.

(** C2. The directory is written only when parameter validation, state
    decoding, code exchange and ownership check have all succeeded, and then
    with the decoded account and the claimed installation; otherwise the
    callback ends with an error and the directory is as it was. *)
Theorem directory_commit_only_on_success (request : Request) (now : Q)
    (w : world) :
  (exists e,
     fst (callback request now w) = Raise e
     /\ INSTALLATIONS_DB (snd (callback request now w)) = INSTALLATIONS_DB w)
  \/ (exists code installation_id state_token account_id user_token w1 w2,
        truthy_str (query_code request) = Some code
        /\ truthy_str (query_installation_id request) = Some installation_id
        /\ truthy_token (query_state request) = Some state_token
        /\ decode state_token now = Return account_id
        /\ exchange code state_token w = (Return (Some user_token), w1)
        /\ owns user_token (PyStr installation_id) w1 = (Return true, w2)
        /\ fst (callback request now w) = Return (RedirectResponse "/setup")
        /\ INSTALLATIONS_DB (snd (callback request now w))
           = <[account_id := installation_id]> (INSTALLATIONS_DB w)).
Proof.
  destruct (truthy_str (query_code request)) as [code|] eqn:Hcode.
  2:{ left. destruct (github_callback_missing request now w) as (d & _ & ->);
        [tauto|]. eexists. split; reflexivity. }
  destruct (truthy_str (query_installation_id request)) as [inst|] eqn:Hinst.
  2:{ left. destruct (github_callback_missing request now w) as (d & _ & ->);
        [tauto|]. eexists. split; reflexivity. }
  destruct (truthy_token (query_state request)) as [st|] eqn:Hstate.
  2:{ left. destruct (github_callback_missing request now w) as (d & _ & ->);
        [tauto|]. eexists. split; reflexivity. }
  rewrite (github_callback_present request now w code inst st Hcode Hinst Hstate).
  destruct (decode st now) as [account_id|e] eqn:Hdec.
  2:{ left. eexists. split; reflexivity. }
  pose proof (exchange_code_for_user_token_db github code st w) as Hdb1.
  destruct (exchange code st w) as [[[user_token|]|e] w1] eqn:Hex;
    cbn [snd] in Hdb1.
  2,3: left; eexists; split; [reflexivity|exact Hdb1].
  pose proof (user_owns_installation_db github user_token (PyStr inst) w1) as Hdb2.
  destruct (owns user_token (PyStr inst) w1) as [[[|]|e] w2] eqn:Hown;
    cbn [snd] in Hdb2.
  2,3: left; eexists; split; [reflexivity|cbn [snd]; congruence].
  right. exists code, inst, st, account_id, user_token, w1, w2.
  repeat split; try assumption; try reflexivity. cbn. congruence.
Qed.

(** C6. When [code], [installation_id] or [state] is absent the callback
    fails with HTTP 400 and one of the three "Missing ..." details, and no
    outbound call is made: the log of outbound requests, like the rest of
    the world, is unchanged. *)
Theorem callback_missing_parameter (request : Request) (now : Q) (w : world) :
  query_code request = None
  \/ query_installation_id request = None
  \/ query_state request = None ->
  exists detail,
    detail ∈ missing_details
    /\ fst (callback request now w) = Raise (HTTPException 400 detail)
    /\ outbound (snd (callback request now w)) = outbound w
    /\ snd (callback request now w) = w.
Proof.
  intros Habsent.
  destruct (github_callback_missing request now w) as (d & Hd & Hrun).
  { destruct Habsent as [H|[H|H]]; rewrite H; simpl; tauto. }
  exists d. rewrite Hrun. repeat split. exact Hd.
Qed.

(** The status of the callback's outcome for the failures the code tells
    apart: a missing parameter gives 400; a state token PyJWT rejects
    (expired or invalid) gives 400; a code exchange that returns no
    credential gives 400; a negative ownership check gives 403; and when
    every step succeeds the outcome is a redirect to [/setup]. A state token
    PyJWT accepts and that lacks [account_id] is in none of these kinds. *)
Theorem callback_status_by_failure_kind (request : Request) (now : Q)
    (w : world) :
  (truthy_str (query_code request) = None
   \/ truthy_str (query_installation_id request) = None
   \/ truthy_token (query_state request) = None ->
   exists detail,
     detail ∈ missing_details
     /\ fst (callback request now w) = Raise (HTTPException 400 detail))
  /\ (forall code installation_id state_token,
        truthy_str (query_code request) = Some code ->
        truthy_str (query_installation_id request) = Some installation_id ->
        truthy_token (query_state request) = Some state_token ->
        (forall err,
           jwt.decode hmac_sha256 state_token JWT_SECRET [JWT_ALGORITHM] now
           = inr err ->
           fst (callback request now w)
           = Raise (HTTPException 400
                      match err with
                      | jwt.ExpiredSignatureError => "State token has expired."
                      | _ => "Invalid state token."
                      end))
        /\ (forall account_id,
              decode state_token now = Return account_id ->
              (forall w1,
                 exchange code state_token w = (Return None, w1) ->
                 fst (callback request now w)
                 = Raise (HTTPException 400
                            "Failed to exchange code for user token."))
              /\ (forall user_token w1,
                    exchange code state_token w = (Return (Some user_token), w1) ->
                    (forall w2,
                       owns user_token (PyStr installation_id) w1
                       = (Return false, w2) ->
                       fst (callback request now w)
                       = Raise (HTTPException 403
                                  "Installation is not associated with this user."))
                    /\ (forall w2,
                          owns user_token (PyStr installation_id) w1
                          = (Return true, w2) ->
                          fst (callback request now w)
                          = Return (RedirectResponse "/setup"))))).
Proof.
  split.
  - intros Hmiss.
    destruct (github_callback_missing request now w Hmiss) as (d & Hd & ->).
    exists d. split; [exact Hd|reflexivity].
  - intros code inst st Hcode Hinst Hstate.
    rewrite (github_callback_present request now w code inst st Hcode Hinst Hstate).
    split.
    + intros err Herr. unfold decode_state_token. rewrite Herr.
      destruct err; reflexivity.
    + intros account_id ->. split.
      * intros w1 ->. reflexivity.
      * intros user_token w1 ->. split; intros w2 ->; reflexivity.
Qed.

(** C7 (the code at the failing input). A callback with its three
    parameters present and a validly signed, unexpired state token that
    lacks the [account_id] claim (an invalid token) does not end with HTTP
    400: the [KeyError] of [decode_state_token] escapes the callback, which
    is no HTTP error of the handler, and the world is untouched. *)
Theorem callback_state_without_account_id (request : Request) (now : Q)
    (w : world) (code installation_id : string) (e : Z) :
  truthy_str (query_code request) = Some code ->
  truthy_str (query_installation_id request) = Some installation_id ->
  query_state request
    = Some (jwt.encode hmac_sha256
              {| jwt.account_id := None; jwt.exp := Some e |}
              JWT_SECRET JWT_ALGORITHM) ->
  (now < inject_Z e)%Q ->
  callback request now w = (Raise (KeyError "account_id"), w)
  /\ ~ is_http_error (fst (callback request now w)).
Proof.
  intros Hcode Hinst Hstate Hfresh.
  assert (truthy_token (query_state request)
          = Some (jwt.encode hmac_sha256
                    {| jwt.account_id := None; jwt.exp := Some e |}
                    JWT_SECRET JWT_ALGORITHM)) as Htok.
  { rewrite Hstate. reflexivity. }
  rewrite (github_callback_present request now w code installation_id _
             Hcode Hinst Htok).
  unfold decode_state_token. rewrite jwt_decode_encode. cbn [jwt.exp].
  rewrite Qle_bool_false by exact Hfresh. cbn [jwt.account_id fst].
  split; [reflexivity|]. intros (status & detail & H). discriminate.
Qed.
End CallbackProperties.

(** ** Replay of a state token *)

Section Replay.
Variable hmac_sha256 : string -> jwt.header * jwt.payload -> string.
Variables github1 github2 : httpx.Request -> httpx.Response + httpx_error.

Local Abbreviation decode := (decode_state_token hmac_sha256).

(** Whether a token has expired is the only thing about it that changes
    with the clock. *)
Lemma decode_state_token_later (t : jwt.token) (now1 now2 : Q) (a : string) :
  decode t now1 = Return a ->
  jwt.decode hmac_sha256 t JWT_SECRET [JWT_ALGORITHM] now2
    <> inr jwt.ExpiredSignatureError ->
  decode t now2 = Return a.
Proof.
  unfold decode_state_token, jwt.decode.
  destruct t as [raw | h p sig]; [discriminate|].
  destruct (negb (bool_decide _ && _)); [discriminate|].
  destruct (negb (String.eqb sig _)); [discriminate|].
  destruct (jwt.exp p) as [e|]; [|tauto].
  destruct (Qle_bool (inject_Z e) now1); [discriminate|].
  destruct (Qle_bool (inject_Z e) now2); [congruence|tauto].
Qed.

(** C8 (as amended). The callback keeps no record of the state tokens it
    has accepted. After a callback has completed with a state token, a
    second callback presenting the same token completes as well whenever the
    token has not yet expired and the code exchange and the ownership check
    of the second callback succeed; it overwrites the directory entry of the
    token's account. *)
Theorem state_token_not_consumed
    (request1 request2 : Request) (now1 now2 : Q) (w w1 : world)
    (r1 : Response) (state_token : jwt.token)
    (code2 installation_id2 user_token2 : string) :
  github_callback hmac_sha256 github1 request1 now1 w = (Return r1, w1) ->
  query_state request1 = Some state_token ->
  query_state request2 = Some state_token ->
  truthy_str (query_code request2) = Some code2 ->
  truthy_str (query_installation_id request2) = Some installation_id2 ->
  jwt.decode hmac_sha256 state_token JWT_SECRET [JWT_ALGORITHM] now2
    <> inr jwt.ExpiredSignatureError ->
  (forall w', fst (exchange_code_for_user_token github2 code2 state_token w')
              = Return (Some user_token2)) ->
  (forall w', fst (user_owns_installation github2 user_token2
                     (PyStr installation_id2) w') = Return true) ->
  exists account_id,
    decode state_token now1 = Return account_id
    /\ fst (github_callback hmac_sha256 github2 request2 now2 w1)
       = Return (RedirectResponse "/setup")
    /\ INSTALLATIONS_DB (snd (github_callback hmac_sha256 github2 request2 now2 w1))
       = <[account_id := installation_id2]> (INSTALLATIONS_DB w1).
Proof.
  intros Hfirst Hst1 Hst2 Hcode2 Hinst2 Hfresh Hex2 Hown2.
  (* the first callback got past its three parameter checks and the decode *)
  assert (truthy_token (Some state_token) = Some state_token
          /\ exists a, decode state_token now1 = Return a) as [Htok [a Hdec]].
  { destruct (truthy_str (query_code request1)) as [c1|] eqn:Hc1.
    2:{ destruct (github_callback_missing hmac_sha256 github1 request1 now1 w)
        as (d & _ & Hrun);
          [tauto|]. rewrite Hrun in Hfirst. discriminate. }
    destruct (truthy_str (query_installation_id request1)) as [i1|] eqn:Hi1.
    2:{ destruct (github_callback_missing hmac_sha256 github1 request1 now1 w)
        as (d & _ & Hrun);
          [tauto|]. rewrite Hrun in Hfirst. discriminate. }
    destruct (truthy_token (query_state request1)) as [t1|] eqn:Ht1.
    2:{ destruct (github_callback_missing hmac_sha256 github1 request1 now1 w)
        as (d & _ & Hrun);
          [tauto|]. rewrite Hrun in Hfirst. discriminate. }
    rewrite (github_callback_present hmac_sha256 github1 request1 now1 w
               c1 i1 t1 Hc1 Hi1 Ht1)
      in Hfirst.
    rewrite Hst1 in Ht1. assert (t1 = state_token) as ->.
    { simpl in Ht1. destruct (jwt.is_empty state_token); congruence. }
    split; [exact Ht1|].
    destruct (decode state_token now1) as [a|e]; [eauto|discriminate]. }
  exists a. split; [exact Hdec|].
  rewrite <- Hst2 in Htok at 1.
  rewrite (github_callback_present hmac_sha256 github2 request2 now2 w1 code2
             installation_id2 state_token Hcode2 Hinst2 Htok).
  rewrite (decode_state_token_later state_token now1 now2 a Hdec Hfresh).
  pose proof (Hex2 w1) as Hex.
  pose proof (exchange_code_for_user_token_db github2 code2 state_token w1) as Hdb1.
  destruct (exchange_code_for_user_token github2 code2 state_token w1)
    as [rx wx]. cbn [fst snd] in Hex, Hdb1. subst rx.
  pose proof (Hown2 wx) as Hown.
  pose proof (user_owns_installation_db github2 user_token2
                (PyStr installation_id2) wx) as Hdb2.
  destruct (user_owns_installation github2 user_token2 (PyStr installation_id2) wx)
    as [ro wo]. cbn [fst snd] in Hown, Hdb2. subst ro.
  split; [reflexivity|]. cbn. congruence.
Qed.
End Replay.

(** ** Transport failures *)

Section TransportFailures.
Variable hmac_sha256 : string -> jwt.header * jwt.payload -> string.
Variable github : httpx.Request -> httpx.Response + httpx_error.

Local Abbreviation callback := (github_callback hmac_sha256 github).
Local Abbreviation decode := (decode_state_token hmac_sha256).
Local Abbreviation exchange := (exchange_code_for_user_token github).
Local Abbreviation owns := (user_owns_installation github).

Lemma get_installation_token_run (app_jwt : string) (installation_id : pyval)
    (w : world) :
  get_installation_token github app_jwt installation_id w
  = let req := installation_token_request app_jwt installation_id in
    match github req with
    | inl resp =>
        if Z.eqb (httpx.status_code resp) 201
        then (Return (httpx.token (httpx.json resp)), record_call req w)
        else (Return None,
              snd (print ("Error getting installation token: " ++ httpx.text resp)
                     (record_call req w)))
    | inr e => (Raise (TransportError e), record_call req w)
    end.
Proof.
  unfold get_installation_token, bind, client_post, client_request.
  fold (installation_token_request app_jwt installation_id). cbv zeta.
  destruct (github (installation_token_request app_jwt installation_id))
    as [resp|e]; [|reflexivity].
  destruct (Z.eqb (httpx.status_code resp) 201); reflexivity.
Qed.


End TransportFailures.

(** ** The properties at concrete inputs *)

(** The ownership property on the listing [[999]] and the claimed id
    "999". *)
Lemma user_owns_installation_by_str_witness :
  exists owns,
    fst (user_owns_installation (approving_github listing_999)
           "u-tok" (PyStr "999") empty_world) = Return owns
    /\ (owns = true
        <-> 200 = 200
            /\ exists inst,
                 inst ∈ listing_999
                 /\ py_str (httpx.id inst) = py_str (PyStr "999"))
    /\ (200 <> 200 -> owns = false)
    /\ (listing_999 = [] -> owns = false)
    /\ ((forall inst,
           inst ∈ listing_999 ->
           py_str (httpx.id inst) <> py_str (PyStr "999")) ->
        owns = false).
Proof.
  apply (user_owns_installation_by_str (approving_github listing_999)
           "u-tok" (PyStr "999")
           {| httpx.status_code := 200; httpx.text := "";
              httpx.json := {| httpx.access_token := None;
                               httpx.installations := Some listing_999;
                               httpx.token := None;
                               httpx.repositories := None |} |}
           empty_world).
  reflexivity.
Defined.

(** The listing [[7; 999]] against the claimed string "999", the decimal
    string of 999. *)
Lemma user_owns_installation_int_id_witness :
  py_str (PyInt 999) = "999"
  /\ (fst (user_owns_installation
             (approving_github [{| httpx.id := PyInt 7 |};
                                {| httpx.id := PyInt 999 |}])
             "u-tok" (PyStr "999") empty_world) = Return true
      <-> exists inst,
            inst ∈ [{| httpx.id := PyInt 7 |}; {| httpx.id := PyInt 999 |}]
            /\ py_str (httpx.id inst) = "999")
  /\ fst (user_owns_installation
            (approving_github [{| httpx.id := PyInt 7 |};
                               {| httpx.id := PyInt 999 |}])
            "u-tok" (PyStr "999") empty_world) = Return true
  /\ (forall m, py_str (PyInt m) = "999" -> m = 999)
  /\ py_eq (PyInt 999) (PyStr "999") = false.
Proof.
  destruct (user_owns_installation_int_id
              (approving_github [{| httpx.id := PyInt 7 |};
                                 {| httpx.id := PyInt 999 |}])
              "u-tok" 999
              {| httpx.status_code := 200; httpx.text := "";
                 httpx.json :=
                   {| httpx.access_token := None;
                      httpx.installations :=
                        Some [{| httpx.id := PyInt 7 |};
                              {| httpx.id := PyInt 999 |}];
                      httpx.token := None;
                      httpx.repositories := None |} |}
              [{| httpx.id := PyInt 7 |}; {| httpx.id := PyInt 999 |}]
              empty_world eq_refl eq_refl eq_refl)
    as (Hiff & _ & Hlisted & Hinj & _ & Hneq).
  split; [reflexivity|]. split; [exact Hiff|]. split.
  - apply Hlisted. right. left.
  - split; [exact Hinj|exact Hneq].
Defined.

(** A token issued at 1000.7 s (expiry 1300) decoded at 1299.9 s. *)
Lemma state_token_round_trip_witness :
  (12999 # 10 < inject_Z (py_int (10007 # 10) + 300))%Q
  /\ decode_state_token example_hmac
       (generate_state_token example_hmac "acct-1" (10007 # 10)) (12999 # 10)
     = Return "acct-1".
Proof.
  split.
  - vm_compute. reflexivity.
  - apply (state_token_round_trip example_hmac "acct-1" (10007 # 10) (12999 # 10)).
    vm_compute. reflexivity.
Defined.

(** A signed token with [exp] 1300 and no [account_id], decoded at 1010 s. *)
Lemma state_token_missing_account_id_witness :
  decode_state_token example_hmac
    (jwt.encode example_hmac {| jwt.account_id := None; jwt.exp := Some 1300 |}
       JWT_SECRET JWT_ALGORITHM) 1010
  = Raise (KeyError "account_id").
Proof.
  apply (state_token_missing_account_id example_hmac 1300 1010).
  vm_compute. reflexivity.
Defined.

(** The scenario callback without its [code] parameter. *)
Lemma callback_missing_parameter_witness :
  exists detail,
    detail ∈ missing_details
    /\ fst (github_callback example_hmac timeout_github
              {| query_code := None;
                 query_installation_id := Some "999";
                 query_state := Some (generate_state_token example_hmac
                                        "acct-1" 1000) |}
              1010 empty_world) = Raise (HTTPException 400 detail)
    /\ outbound (snd (github_callback example_hmac timeout_github
              {| query_code := None;
                 query_installation_id := Some "999";
                 query_state := Some (generate_state_token example_hmac
                                        "acct-1" 1000) |}
              1010 empty_world)) = outbound empty_world
    /\ snd (github_callback example_hmac timeout_github
              {| query_code := None;
                 query_installation_id := Some "999";
                 query_state := Some (generate_state_token example_hmac
                                        "acct-1" 1000) |}
              1010 empty_world) = empty_world.
Proof.
  apply (callback_missing_parameter example_hmac timeout_github
           {| query_code := None;
              query_installation_id := Some "999";
              query_state := Some (generate_state_token example_hmac
                                     "acct-1" 1000) |}
           1010 empty_world).
  left. reflexivity.
Defined.

(** C8 (counterexample). Two callbacks present the state token issued for
    [acct-1] at time 1000, the first at time 1010 with code [abc], the
    second at time 1020 with code [def], in the world the first one left:
    both complete with the redirect. *)
Lemma state_token_replayed :
  fst (github_callback example_hmac (approving_github listing_999)
         (scenario_request "abc") 1010 empty_world)
  = Return (RedirectResponse "/setup")
  /\ fst (github_callback example_hmac (approving_github listing_999)
            (scenario_request "def") 1020
            (snd (github_callback example_hmac (approving_github listing_999)
                    (scenario_request "abc") 1010 empty_world)))
     = Return (RedirectResponse "/setup").
Proof. split; vm_compute; reflexivity. Qed.


(** One callback per outcome kind: no [installation_id]; the token decoded
    at its expiry; an exchange without credential; an empty listing; the
    end-to-end success scenario. *)
Lemma callback_status_witness :
  (exists detail,
     detail ∈ missing_details
     /\ fst (github_callback example_hmac (approving_github listing_999)
               {| query_code := Some "abc"; query_installation_id := None;
                  query_state := None |} 1010 empty_world)
        = Raise (HTTPException 400 detail))
  /\ fst (github_callback example_hmac (approving_github listing_999)
            (scenario_request "abc") 1300 empty_world)
     = Raise (HTTPException 400 "State token has expired.")
  /\ fst (github_callback example_hmac (status_github 200)
            (scenario_request "abc") 1010 empty_world)
     = Raise (HTTPException 400 "Failed to exchange code for user token.")
  /\ fst (github_callback example_hmac (approving_github [])
            (scenario_request "abc") 1010 empty_world)
     = Raise (HTTPException 403 "Installation is not associated with this user.")
  /\ fst (github_callback example_hmac (approving_github listing_999)
            (scenario_request "abc") 1010 empty_world)
     = Return (RedirectResponse "/setup").
Proof.
  repeat apply conj.
  - apply (callback_status_by_failure_kind example_hmac
             (approving_github listing_999)
             {| query_code := Some "abc"; query_installation_id := None;
                query_state := None |} 1010 empty_world).
    right. left. reflexivity.
  - destruct (callback_status_by_failure_kind example_hmac
                (approving_github listing_999) (scenario_request "abc") 1300
                empty_world) as [_ H].
    destruct (H "abc" "999" (generate_state_token example_hmac "acct-1" 1000)
                eq_refl eq_refl eq_refl) as [Hstate _].
    apply (Hstate jwt.ExpiredSignatureError). vm_compute. reflexivity.
  - destruct (callback_status_by_failure_kind example_hmac
                (status_github 200) (scenario_request "abc") 1010
                empty_world) as [_ H].
    destruct (H "abc" "999" (generate_state_token example_hmac "acct-1" 1000)
                eq_refl eq_refl eq_refl) as [_ Hsteps].
    destruct (Hsteps "acct-1") as [Hexchange _]; [vm_compute; reflexivity|].
    eapply Hexchange. vm_compute. reflexivity.
  - destruct (callback_status_by_failure_kind example_hmac
                (approving_github []) (scenario_request "abc") 1010
                empty_world) as [_ H].
    destruct (H "abc" "999" (generate_state_token example_hmac "acct-1" 1000)
                eq_refl eq_refl eq_refl) as [_ Hsteps].
    destruct (Hsteps "acct-1") as [_ Hexchanged]; [vm_compute; reflexivity|].
    edestruct Hexchanged as [Hdenied _]; [vm_compute; reflexivity|].
    eapply Hdenied. vm_compute. reflexivity.
  - destruct (callback_status_by_failure_kind example_hmac
                (approving_github listing_999) (scenario_request "abc") 1010
                empty_world) as [_ H].
    destruct (H "abc" "999" (generate_state_token example_hmac "acct-1" 1000)
                eq_refl eq_refl eq_refl) as [_ Hsteps].
    destruct (Hsteps "acct-1") as [_ Hexchanged]; [vm_compute; reflexivity|].
    edestruct Hexchanged as [_ Howned]; [vm_compute; reflexivity|].
    eapply Howned. vm_compute. reflexivity.
Defined.

(** The end-to-end scenario run twice with one state token, codes [abc] at
    1010 s and [def] at 1020 s. *)
Lemma state_token_not_consumed_witness :
  exists account_id,
    decode_state_token example_hmac
      (generate_state_token example_hmac "acct-1" 1000) 1010 = Return account_id
    /\ fst (github_callback example_hmac (approving_github listing_999)
              (scenario_request "def") 1020
              (snd (github_callback example_hmac (approving_github listing_999)
                      (scenario_request "abc") 1010 empty_world)))
       = Return (RedirectResponse "/setup")
    /\ INSTALLATIONS_DB
         (snd (github_callback example_hmac (approving_github listing_999)
                 (scenario_request "def") 1020
                 (snd (github_callback example_hmac (approving_github listing_999)
                         (scenario_request "abc") 1010 empty_world))))
       = <[account_id := "999"]>
           (INSTALLATIONS_DB
              (snd (github_callback example_hmac (approving_github listing_999)
                      (scenario_request "abc") 1010 empty_world))).
Proof.
  apply (state_token_not_consumed example_hmac
           (approving_github listing_999) (approving_github listing_999)
           (scenario_request "abc") (scenario_request "def") 1010 1020
           empty_world
           (snd (github_callback example_hmac (approving_github listing_999)
                   (scenario_request "abc") 1010 empty_world))
           (RedirectResponse "/setup")
           (generate_state_token example_hmac "acct-1" 1000)
           "def" "999" "u-tok").
  - vm_compute. reflexivity.
  - reflexivity.
  - reflexivity.
  - reflexivity.
  - reflexivity.
  - vm_compute. discriminate.
  - intros w'. reflexivity.
  - intros w'. reflexivity.
Defined.


(** ** The end-to-end scenarios *)

(** Account [acct-1], code [abc], installation [999], credential [u-tok],
    listing [[999]]: the callback redirects to [/setup], the directory maps
    [acct-1] to [999], and two requests went out. *)
Example end_to_end_success :
  fst (github_callback example_hmac (approving_github listing_999)
         (scenario_request "abc") 1010 empty_world)
  = Return (RedirectResponse "/setup")
  /\ INSTALLATIONS_DB
       (snd (github_callback example_hmac (approving_github listing_999)
               (scenario_request "abc") 1010 empty_world))
     = {[ "acct-1" := "999" ]}
  /\ outbound
       (snd (github_callback example_hmac (approving_github listing_999)
               (scenario_request "abc") 1010 empty_world))
     = [access_token_request "abc"
          (generate_state_token example_hmac "acct-1" 1000);
        user_installations_request "u-tok"].
Proof. repeat split; vm_compute; reflexivity. Qed.

(** The same callback against a listing without 999: HTTP 403 and an empty
    directory. *)
Example end_to_end_ownership_denied :
  fst (github_callback example_hmac (approving_github [{| httpx.id := PyInt 7 |}])
         (scenario_request "abc") 1010 empty_world)
  = Raise (HTTPException 403 "Installation is not associated with this user.")
  /\ INSTALLATIONS_DB
       (snd (github_callback example_hmac
               (approving_github [{| httpx.id := PyInt 7 |}])
               (scenario_request "abc") 1010 empty_world))
     = ∅.
Proof. split; vm_compute; reflexivity. Qed.

(** * Further properties of the server *)

(** ** Truthiness *)

Lemma truthy_str_None_iff (o : option string) :
  truthy_str o = None <-> o = None \/ o = Some "".
Proof.
  destruct o as [s|]; simpl; [|tauto].
  destruct (String.eqb_spec s "") as [->|Hne]; split; try tauto; try discriminate.
  intros [H|H]; [discriminate|]. congruence.
Qed.

Lemma truthy_str_Some_iff (o : option string) (s : string) :
  truthy_str o = Some s <-> o = Some s /\ s <> "".
Proof.
  destruct o as [t|]; simpl.
  - destruct (String.eqb_spec t "") as [->|Hne]; split.
    + discriminate.
    + intros [H Hs]. congruence.
    + intros H. split; congruence.
    + intros [H _]. exact H.
  - split; [discriminate|]. intros [H _]. discriminate.
Qed.

(** ** The state token, for arbitrary tokens *)

Section StateTokenAcceptance.
Variable hmac_sha256 : string -> jwt.header * jwt.payload -> string.

Local Abbreviation decode := (decode_state_token hmac_sha256).

Lemma algorithm_allowed (a : string) :
  bool_decide (a ∈ [JWT_ALGORITHM]) && String.eqb a "HS256" = true <-> a = "HS256".
Proof.
  split.
  - intros H. apply andb_true_iff in H as [_ H]. apply String.eqb_eq. exact H.
  - intros ->. apply andb_true_iff. split; [|reflexivity].
    apply bool_decide_eq_true_2. unfold JWT_ALGORITHM. left.
Qed.

(** X1. [decode_state_token] returns an account id only for a token whose
    header names HS256, whose signature is the HMAC of its header and
    payload under [JWT_SECRET], whose payload carries that [account_id], and
    whose [exp], if it has one, lies strictly after the clock reading. *)
Theorem decode_state_token_accepts_only_genuine (t : jwt.token) (now : Q)
    (a : string) :
  decode t now = Return a ->
  exists h p,
    t = jwt.Compact h p (hmac_sha256 JWT_SECRET (h, p))
    /\ jwt.alg h = "HS256"
    /\ jwt.account_id p = Some a
    /\ (forall e, jwt.exp p = Some e -> (now < inject_Z e)%Q).
Proof.
  unfold decode_state_token, jwt.decode.
  destruct t as [raw | h p sig]; [discriminate|].
  destruct (bool_decide _ && _) eqn:Halg; cbn [negb]; [|discriminate].
  apply algorithm_allowed in Halg.
  destruct (String.eqb_spec sig (hmac_sha256 JWT_SECRET (h, p))) as [->|Hne];
    cbn [negb]; [|discriminate].
  intros Hret. exists h, p. repeat split; try assumption.
  - destruct (jwt.exp p) as [e|];
      [destruct (Qle_bool (inject_Z e) now); [discriminate|]|];
      destruct (jwt.account_id p); congruence.
  - intros e He. rewrite He in Hret.
    destruct (Qle_bool (inject_Z e) now) eqn:Hle; [discriminate|].
    apply Qnot_le_lt. intros Hq. apply Qle_bool_iff in Hq. congruence.
Qed.

(** X2. The "expired" error is reported only for a token that is genuine
    (HS256 header, signature under [JWT_SECRET]) and whose [exp] is at or
    before the clock reading: a token with a wrong signature is never told
    that it has expired. *)
Theorem decode_state_token_expired_only_genuine (t : jwt.token) (now : Q) :
  decode t now = Raise (HTTPException 400 "State token has expired.") ->
  exists h p e,
    t = jwt.Compact h p (hmac_sha256 JWT_SECRET (h, p))
    /\ jwt.alg h = "HS256"
    /\ jwt.exp p = Some e
    /\ (inject_Z e <= now)%Q.
Proof.
  unfold decode_state_token, jwt.decode.
  destruct t as [raw | h p sig]; [discriminate|].
  destruct (bool_decide _ && _) eqn:Halg; cbn [negb]; [|discriminate].
  apply algorithm_allowed in Halg.
  destruct (String.eqb_spec sig (hmac_sha256 JWT_SECRET (h, p))) as [->|Hne];
    cbn [negb]; [|discriminate].
  destruct (jwt.exp p) as [e|] eqn:He.
  - destruct (Qle_bool (inject_Z e) now) eqn:Hle.
    + intros _. exists h, p, e. repeat split; try assumption.
      apply Qle_bool_iff. exact Hle.
    + destruct (jwt.account_id p); discriminate.
  - destruct (jwt.account_id p); discriminate.
Qed.

(** X4. Expiry is permanent, and the window of a token the server issued
    has no gap: a token reported expired at some clock reading is reported
    expired at every later one, and a token made by [generate_state_token]
    that is accepted at some clock reading is accepted at every earlier
    one. *)
Theorem decode_state_token_window (t : jwt.token) (earlier later : Q) :
  (earlier <= later)%Q ->
  (decode t earlier = Raise (HTTPException 400 "State token has expired.") ->
   decode t later = Raise (HTTPException 400 "State token has expired."))
  /\ (forall account_id issued,
        decode (generate_state_token hmac_sha256 account_id issued) later
          = Return account_id ->
        decode (generate_state_token hmac_sha256 account_id issued) earlier
          = Return account_id).
Proof.
  intros Hle. split.
  - unfold decode_state_token, jwt.decode.
    destruct t as [raw | h p sig]; [tauto|].
    destruct (negb (bool_decide _ && _)); [tauto|].
    destruct (negb (String.eqb sig _)); [tauto|].
    destruct (jwt.exp p) as [e|]; [|tauto].
    destruct (Qle_bool (inject_Z e) earlier) eqn:H1.
    + apply Qle_bool_iff in H1.
      assert (Qle_bool (inject_Z e) later = true) as ->; [|tauto].
      apply Qle_bool_iff. eapply Qle_trans; eassumption.
    + destruct (jwt.account_id p); discriminate.
  - intros account_id issued. rewrite !decode_generate.
    destruct (Qle_bool _ later) eqn:H2; [discriminate|]. intros _.
    rewrite Qle_bool_false; [reflexivity|].
    eapply Qle_lt_trans; [exact Hle|].
    apply Qnot_le_lt. intros Hq. apply Qle_bool_iff in Hq. congruence.
Qed.
End StateTokenAcceptance.

(** ** The ownership check and the code exchange *)

Lemma py_str_int_inj (n m : Z) : py_str (PyInt n) = py_str (PyInt m) -> n = m.
Proof. simpl. apply pretty_Z_inj. Qed.

(** X5. Between integers the ownership check is exact: when every listed
    id is an integer, the check for the claimed integer [n] (given as the
    integer or as its decimal string) is true exactly when [n] itself is
    listed; two different integers never match. *)
Theorem user_owns_installation_integers_exact github (user_token : string)
    (n : Z) (resp : httpx.Response) (ids : list Z) (w : world) :
  github (user_installations_request user_token) = inl resp ->
  httpx.status_code resp = 200 ->
  httpx.installations (httpx.json resp)
    = Some (map (fun m => {| httpx.id := PyInt m |}) ids) ->
  fst (user_owns_installation github user_token (PyInt n) w)
    = Return (bool_decide (n ∈ ids))
  /\ fst (user_owns_installation github user_token (PyStr (pretty n)) w)
     = Return (bool_decide (n ∈ ids)).
Proof.
  intros Hresp H200 Hlist.
  assert (forall v, py_str v = pretty n ->
            user_owns_installation_loop
              (map (fun m => {| httpx.id := PyInt m |}) ids) v
            = bool_decide (n ∈ ids)) as Hloop.
  { intros v Hv. apply eq_true_iff_eq.
    rewrite user_owns_installation_loop_true, bool_decide_eq_true. split.
    - intros (inst & Hin & Heq). apply list_elem_of_fmap in Hin as (m & -> & Hm).
      rewrite Hv in Heq. apply (py_str_int_inj m n) in Heq. subst m. exact Hm.
    - intros Hn. exists {| httpx.id := PyInt n |}. split.
      + apply list_elem_of_fmap. exists n. split; [reflexivity|exact Hn].
      + rewrite Hv. reflexivity. }
  rewrite !user_owns_installation_run, Hresp, H200, Hlist. cbn [fst negb Z.eqb].
  simpl default. rewrite !Hloop by reflexivity. split; reflexivity.
Qed.

(** X6. The answer of the installations loop does not depend on the order
    of the listing, although the loop returns at the first match. *)
Theorem user_owns_installation_loop_order
    (listing listing' : list httpx.installation) (installation_id : pyval) :
  Permutation listing listing' ->
  user_owns_installation_loop listing installation_id
  = user_owns_installation_loop listing' installation_id.
Proof.
  intros Hperm. apply eq_true_iff_eq.
  rewrite !user_owns_installation_loop_true.
  split; intros (inst & Hin & Heq); exists inst; split; try exact Heq.
  - rewrite <- Hperm. exact Hin.
  - rewrite Hperm. exact Hin.
Qed.

(** X7. The code exchange looks at the [access_token] key of the answer and
    at nothing else: whatever the status code, it returns the credential
    when the key holds a non-empty string and [None] otherwise (never an
    empty credential), and its only effect is the one request it sends. *)
Theorem exchange_code_for_user_token_result github (code : string)
    (state : jwt.token) (resp : httpx.Response) (w : world) :
  github (access_token_request code state) = inl resp ->
  exists r,
    exchange_code_for_user_token github code state w
    = (Return r, record_call (access_token_request code state) w)
    /\ r <> Some ""
    /\ (forall s, r = Some s
                  <-> httpx.access_token (httpx.json resp) = Some s /\ s <> "")
    /\ (r = None
        <-> httpx.access_token (httpx.json resp) = None
            \/ httpx.access_token (httpx.json resp) = Some "").
Proof.
  intros Hresp. rewrite exchange_code_for_user_token_run, Hresp.
  eexists. split; [reflexivity|]. split; [|split].
  - intros H. apply truthy_str_Some_iff in H as [_ H]. contradiction.
  - intros s. apply truthy_str_Some_iff.
  - apply truthy_str_None_iff.
Qed.

(** ** Effects of the callback *)

Section CallbackEffects.
Variable hmac_sha256 : string -> jwt.header * jwt.payload -> string.
Variable github : httpx.Request -> httpx.Response + httpx_error.

Local Abbreviation callback := (github_callback hmac_sha256 github).
Local Abbreviation decode := (decode_state_token hmac_sha256).

(** The callback with its parameters present, in terms of the authority's
    answers. *)
Lemma github_callback_trace (request : Request) (now : Q) (w : world)
    (code installation_id : string) (state_token : jwt.token) :
  truthy_str (query_code request) = Some code ->
  truthy_str (query_installation_id request) = Some installation_id ->
  truthy_token (query_state request) = Some state_token ->
  callback request now w
  = match decode state_token now with
    | Raise e => (Raise e, w)
    | Return account_id =>
        let w1 := record_call (access_token_request code state_token) w in
        match github (access_token_request code state_token) with
        | inr e => (Raise (TransportError e), w1)
        | inl resp =>
            match truthy_str (httpx.access_token (httpx.json resp)) with
            | None =>
                (Raise (HTTPException 400
                          "Failed to exchange code for user token."), w1)
            | Some user_token =>
                let w2 := record_call (user_installations_request user_token) w1 in
                match github (user_installations_request user_token) with
                | inr e => (Raise (TransportError e), w2)
                | inl listing =>
                    if (if negb (Z.eqb (httpx.status_code listing) 200) then false
                        else user_owns_installation_loop
                               (default [] (httpx.installations
                                              (httpx.json listing)))
                               (PyStr installation_id))
                    then (Return (RedirectResponse "/setup"),
                          snd (db_set account_id installation_id w2))
                    else (Raise (HTTPException 403
                                   "Installation is not associated with this user."),
                          w2)
                end
            end
        end
    end.
Proof.
  intros Hcode Hinst Hstate.
  rewrite (github_callback_present hmac_sha256 github request now w code
             installation_id state_token Hcode Hinst Hstate).
  destruct (decode state_token now) as [account_id|e]; [|reflexivity].
  rewrite exchange_code_for_user_token_run. cbv zeta.
  destruct (github (access_token_request code state_token)) as [resp|e];
    [|reflexivity].
  destruct (truthy_str (httpx.access_token (httpx.json resp))) as [user_token|];
    [|reflexivity].
  rewrite user_owns_installation_run.
  destruct (github (user_installations_request user_token)) as [listing|e];
    [|reflexivity].
  destruct (if negb _ then false else _); reflexivity.
Qed.

(** X8. An empty parameter counts as a missing one, and the three checks
    run in the order code, installation id, state: the first parameter that
    is absent or empty decides the error, and the world is left as it was. *)
Theorem callback_first_missing_parameter (request : Request) (now : Q)
    (w : world) :
  (query_code request = None \/ query_code request = Some "" ->
   callback request now w = (Raise (HTTPException 400 "Missing OAuth code."), w))
  /\ (forall code,
        query_code request = Some code -> code <> "" ->
        query_installation_id request = None
        \/ query_installation_id request = Some "" ->
        callback request now w
        = (Raise (HTTPException 400 "Missing installation_id."), w))
  /\ (forall code installation_id,
        query_code request = Some code -> code <> "" ->
        query_installation_id request = Some installation_id ->
        installation_id <> "" ->
        query_state request = None
        \/ query_state request = Some (jwt.Malformed "") ->
        callback request now w
        = (Raise (HTTPException 400 "Missing state token."), w)).
Proof.
  unfold github_callback. repeat apply conj.
  - intros H. apply truthy_str_None_iff in H. rewrite H. reflexivity.
  - intros code Hcode Hne H.
    rewrite (proj2 (truthy_str_Some_iff _ code) (conj Hcode Hne)).
    apply truthy_str_None_iff in H. rewrite H. reflexivity.
  - intros code inst Hcode Hne Hinst Hne' H.
    rewrite (proj2 (truthy_str_Some_iff _ code) (conj Hcode Hne)).
    rewrite (proj2 (truthy_str_Some_iff _ inst) (conj Hinst Hne')).
    destruct H as [-> | ->]; reflexivity.
Qed.

(** X9. The state token is checked before anything is sent: when it does
    not decode, the callback ends with the decoder's error and the world is
    untouched; in particular the OAuth code is not sent to the authority. *)
Theorem callback_rejected_state_sends_nothing (request : Request) (now : Q)
    (w : world) (code installation_id : string) (state_token : jwt.token)
    (e : exn) :
  truthy_str (query_code request) = Some code ->
  truthy_str (query_installation_id request) = Some installation_id ->
  truthy_token (query_state request) = Some state_token ->
  decode state_token now = Raise e ->
  callback request now w = (Raise e, w).
Proof.
  intros Hcode Hinst Hstate Hdec.
  rewrite (github_callback_trace request now w code installation_id state_token
             Hcode Hinst Hstate), Hdec.
  reflexivity.
Qed.

(** X10. The callback sends at most two requests and prints nothing: the
    log of outbound requests grows by nothing, by the access-token request
    for the callback's code and state, or by that request followed by one
    installations request. *)
Theorem callback_outbound_requests (request : Request) (now : Q) (w : world) :
  stdout (snd (callback request now w)) = stdout w
  /\ (outbound (snd (callback request now w)) = outbound w
      \/ exists code state_token,
           truthy_str (query_code request) = Some code
           /\ truthy_token (query_state request) = Some state_token
           /\ (outbound (snd (callback request now w))
               = (outbound w ++ [access_token_request code state_token])%list
               \/ exists user_token,
                    outbound (snd (callback request now w))
                    = (outbound w ++ [access_token_request code state_token;
                                      user_installations_request user_token])%list)).
Proof.
  destruct (truthy_str (query_code request)) as [code|] eqn:Hcode.
  2:{ destruct (github_callback_missing hmac_sha256 github request now w)
        as (d & _ & ->); [tauto|]. split; [reflexivity|left; reflexivity]. }
  destruct (truthy_str (query_installation_id request)) as [inst|] eqn:Hinst.
  2:{ destruct (github_callback_missing hmac_sha256 github request now w)
        as (d & _ & ->); [tauto|]. split; [reflexivity|left; reflexivity]. }
  destruct (truthy_token (query_state request)) as [st|] eqn:Hstate.
  2:{ destruct (github_callback_missing hmac_sha256 github request now w)
        as (d & _ & ->); [tauto|]. split; [reflexivity|left; reflexivity]. }
  rewrite (github_callback_trace request now w code inst st Hcode Hinst Hstate).
  destruct (decode st now) as [account_id|e].
  2:{ split; [reflexivity|left; reflexivity]. }
  cbv zeta.
  destruct (github (access_token_request code st)) as [resp|e].
  2:{ split; [reflexivity|]. right. exists code, st. repeat split.
      left. reflexivity. }
  destruct (truthy_str (httpx.access_token (httpx.json resp))) as [user_token|].
  2:{ split; [reflexivity|]. right. exists code, st. repeat split.
      left. reflexivity. }
  assert (outbound (record_call (user_installations_request user_token)
                      (record_call (access_token_request code st) w))
          = (outbound w ++ [access_token_request code st;
                            user_installations_request user_token])%list) as Hlog.
  { simpl. rewrite <- app_assoc. reflexivity. }
  destruct (github (user_installations_request user_token)) as [listing|e].
  2:{ split; [reflexivity|]. right. exists code, st. repeat split.
      right. exists user_token. exact Hlog. }
  destruct (if negb _ then false else _).
  - split; [reflexivity|]. right. exists code, st. repeat split.
    right. exists user_token. exact Hlog.
  - split; [reflexivity|]. right. exists code, st. repeat split.
    right. exists user_token. exact Hlog.
Qed.

(** The directory after a callback: untouched, or the old one with the
    decoded account set to the claimed installation. *)
Lemma github_callback_directory (request : Request) (now : Q) (w : world) :
  (INSTALLATIONS_DB (snd (callback request now w)) = INSTALLATIONS_DB w
   /\ exists e, fst (callback request now w) = Raise e)
  \/ (exists installation_id state_token account_id,
        truthy_str (query_installation_id request) = Some installation_id
        /\ truthy_token (query_state request) = Some state_token
        /\ decode state_token now = Return account_id
        /\ fst (callback request now w) = Return (RedirectResponse "/setup")
        /\ INSTALLATIONS_DB (snd (callback request now w))
           = <[account_id := installation_id]> (INSTALLATIONS_DB w)).
Proof.
  destruct (truthy_str (query_code request)) as [code|] eqn:Hcode.
  2:{ destruct (github_callback_missing hmac_sha256 github request now w)
        as (d & _ & ->); [tauto|]. left. eauto. }
  destruct (truthy_str (query_installation_id request)) as [inst|] eqn:Hinst.
  2:{ destruct (github_callback_missing hmac_sha256 github request now w)
        as (d & _ & ->); [tauto|]. left. eauto. }
  destruct (truthy_token (query_state request)) as [st|] eqn:Hstate.
  2:{ destruct (github_callback_missing hmac_sha256 github request now w)
        as (d & _ & ->); [tauto|]. left. eauto. }
  rewrite (github_callback_trace request now w code inst st Hcode Hinst Hstate).
  destruct (decode st now) as [account_id|e] eqn:Hdec; [|left; eauto].
  cbv zeta.
  destruct (github (access_token_request code st)) as [resp|e]; [|left; eauto].
  destruct (truthy_str (httpx.access_token (httpx.json resp))) as [user_token|];
    [|left; eauto].
  destruct (github (user_installations_request user_token)) as [listing|e];
    [|left; eauto].
  destruct (if negb _ then false else _); [|left; eauto].
  right. exists inst, st, account_id. repeat split; reflexivity || assumption.
Qed.

(** X11. A callback changes the directory at one key at most: every key
    keeps its entry, except that a completed callback sets the entry of the
    account its state token decodes to. *)
Theorem callback_touches_one_account (request : Request) (now : Q) (w : world)
    (key : string) :
  INSTALLATIONS_DB (snd (callback request now w)) !! key
    = INSTALLATIONS_DB w !! key
  \/ (exists installation_id state_token,
        truthy_str (query_installation_id request) = Some installation_id
        /\ truthy_token (query_state request) = Some state_token
        /\ decode state_token now = Return key
        /\ fst (callback request now w) = Return (RedirectResponse "/setup")
        /\ INSTALLATIONS_DB (snd (callback request now w)) !! key
           = Some installation_id).
Proof.
  destruct (github_callback_directory request now w)
    as [[Hdb _] | (inst & st & account_id & Hinst & Hst & Hdec & Hret & Hdb)].
  - left. rewrite Hdb. reflexivity.
  - rewrite Hdb. destruct (decide (account_id = key)) as [<-|Hne].
    + right. exists inst, st. rewrite lookup_insert_eq. tauto.
    + left. apply lookup_insert_ne. exact Hne.
Qed.

(** X12. The callback never stores an empty installation id: if every
    entry of the directory is non-empty before a callback, so is every
    entry after it. *)
Theorem callback_keeps_values_nonempty (request : Request) (now : Q)
    (w : world) :
  db_values_nonempty (INSTALLATIONS_DB w) ->
  db_values_nonempty (INSTALLATIONS_DB (snd (callback request now w))).
Proof.
  intros Hinv.
  destruct (github_callback_directory request now w)
    as [[Hdb _] | (inst & st & account_id & Hinst & _ & _ & _ & Hdb)];
    rewrite Hdb; [exact Hinv|].
  intros key value Hlook.
  destruct (decide (account_id = key)) as [<-|Hne].
  - rewrite lookup_insert_eq in Hlook. injection Hlook as <-.
    apply truthy_str_Some_iff in Hinst. tauto.
  - rewrite lookup_insert_ne in Hlook by exact Hne. eapply Hinv. exact Hlook.
Qed.
End CallbackEffects.

(** ** From issuing a state token to the directory *)

Section Linking.
Variable hmac_sha256 : string -> jwt.header * jwt.payload -> string.
Variables github github' : httpx.Request -> httpx.Response + httpx_error.

Local Abbreviation decode := (decode_state_token hmac_sha256).

(** X13. A state token issued for an account links that account: a
    callback that presents it before its expiry, with a code the authority
    exchanges for a credential and an installation the credential's user
    owns, redirects to [/setup], after which the directory maps the account
    to the claimed installation and every other key as before. *)
Theorem issued_token_links_account (account_id : string) (issued now : Q)
    (request : Request) (code installation_id user_token : string) (w : world) :
  query_state request
    = Some (generate_state_token hmac_sha256 account_id issued) ->
  truthy_str (query_code request) = Some code ->
  truthy_str (query_installation_id request) = Some installation_id ->
  (now < inject_Z (py_int issued + 300))%Q ->
  (forall w', fst (exchange_code_for_user_token github code
                     (generate_state_token hmac_sha256 account_id issued) w')
              = Return (Some user_token)) ->
  (forall w', fst (user_owns_installation github user_token
                     (PyStr installation_id) w') = Return true) ->
  fst (github_callback hmac_sha256 github request now w)
    = Return (RedirectResponse "/setup")
  /\ INSTALLATIONS_DB (snd (github_callback hmac_sha256 github request now w))
       !! account_id = Some installation_id
  /\ (forall key, key <> account_id ->
        INSTALLATIONS_DB (snd (github_callback hmac_sha256 github request now w))
          !! key = INSTALLATIONS_DB w !! key).
Proof.
  intros Hstate Hcode Hinst Hfresh Hex Hown.
  assert (truthy_token (query_state request)
          = Some (generate_state_token hmac_sha256 account_id issued)) as Htok.
  { rewrite Hstate. reflexivity. }
  rewrite (github_callback_present hmac_sha256 github request now w code
             installation_id _ Hcode Hinst Htok).
  rewrite decode_generate, Qle_bool_false by exact Hfresh.
  pose proof (Hex w) as Hex1.
  pose proof (exchange_code_for_user_token_db github code
                (generate_state_token hmac_sha256 account_id issued) w) as Hdb1.
  destruct (exchange_code_for_user_token github code _ w) as [rx w1].
  cbn [fst snd] in Hex1, Hdb1. subst rx.
  pose proof (Hown w1) as Hown1.
  pose proof (user_owns_installation_db github user_token
                (PyStr installation_id) w1) as Hdb2.
  destruct (user_owns_installation github user_token (PyStr installation_id) w1)
    as [ro w2].
  cbn [fst snd] in Hown1, Hdb2. subst ro. cbn [fst snd db_set INSTALLATIONS_DB].
  rewrite Hdb2, Hdb1. split; [reflexivity|]. split.
  - apply lookup_insert_eq.
  - intros key Hne. apply lookup_insert_ne. congruence.
Qed.

(** X14. Completed callbacks compose as writes to a map: after two of them
    in a row, the account of the second maps to the second installation
    (the last write wins when the accounts are the same), and the account of
    the first, when different, still maps to the first installation. *)
Theorem callbacks_last_write_wins (request1 request2 : Request) (now1 now2 : Q)
    (w w1 w2 : world) (r1 r2 : Response)
    (state1 state2 : jwt.token) (account1 account2 id1 id2 : string) :
  github_callback hmac_sha256 github request1 now1 w = (Return r1, w1) ->
  github_callback hmac_sha256 github' request2 now2 w1 = (Return r2, w2) ->
  truthy_token (query_state request1) = Some state1 ->
  truthy_token (query_state request2) = Some state2 ->
  decode state1 now1 = Return account1 ->
  decode state2 now2 = Return account2 ->
  truthy_str (query_installation_id request1) = Some id1 ->
  truthy_str (query_installation_id request2) = Some id2 ->
  INSTALLATIONS_DB w2 !! account2 = Some id2
  /\ (account1 <> account2 -> INSTALLATIONS_DB w2 !! account1 = Some id1)
  /\ INSTALLATIONS_DB w2
     = <[account2 := id2]> (<[account1 := id1]> (INSTALLATIONS_DB w)).
Proof.
  intros Hrun1 Hrun2 Hst1 Hst2 Hdec1 Hdec2 Hid1 Hid2.
  assert (INSTALLATIONS_DB w1 = <[account1 := id1]> (INSTALLATIONS_DB w)) as Hdb1.
  { destruct (github_callback_directory hmac_sha256 github request1 now1 w)
      as [[_ [e He]] | (i & s & a & Hi & Hs & Hd & _ & Hdb)];
      rewrite Hrun1 in *; cbn [fst snd] in *; [discriminate|].
    congruence. }
  assert (INSTALLATIONS_DB w2 = <[account2 := id2]> (INSTALLATIONS_DB w1)) as Hdb2.
  { destruct (github_callback_directory hmac_sha256 github' request2 now2 w1)
      as [[_ [e He]] | (i & s & a & Hi & Hs & Hd & _ & Hdb)];
      rewrite Hrun2 in *; cbn [fst snd] in *; [discriminate|].
    congruence. }
  rewrite Hdb2, Hdb1. split; [apply lookup_insert_eq|]. split; [|reflexivity].
  intros Hne. rewrite lookup_insert_ne by congruence. apply lookup_insert_eq.
Qed.
End Linking.

(** ** Installation tokens and the repositories listing *)

Section InstallationRepos.
Variable github : httpx.Request -> httpx.Response + httpx_error.

Lemma list_installation_repos_run (app_jwt : string) (installation_id : pyval)
    (w : world) :
  list_installation_repos github app_jwt installation_id w
  = match get_installation_token github app_jwt installation_id w with
    | (Raise e, w1) => (Raise e, w1)
    | (Return installation_token, w1) =>
        match truthy_str installation_token with
        | None =>
            (Raise (HTTPException 400 "Failed to obtain installation token."), w1)
        | Some installation_token =>
            let req := repositories_request installation_token in
            match github req with
            | inr e => (Raise (TransportError e), record_call req w1)
            | inl resp =>
                if negb (Z.eqb (httpx.status_code resp) 200)
                then (Raise (HTTPException (httpx.status_code resp)
                               ("Error fetching repositories: "
                                ++ httpx.text resp)),
                      record_call req w1)
                else match httpx.repositories (httpx.json resp) with
                     | Some repositories =>
                         (Return repositories, record_call req w1)
                     | None =>
                         (Raise (KeyError "repositories"), record_call req w1)
                     end
            end
        end
    end.
Proof.
  unfold list_installation_repos, bind at 1.
  destruct (get_installation_token github app_jwt installation_id w)
    as [[installation_token|e] w1]; [|reflexivity].
  destruct (truthy_str installation_token) as [tok|]; [|reflexivity].
  unfold bind, client_get, client_request. fold (repositories_request tok).
  cbv zeta. destruct (github (repositories_request tok)) as [resp|e];
    [|reflexivity].
  destruct (negb _); [reflexivity|].
  destruct (httpx.repositories (httpx.json resp)); reflexivity.
Qed.

(** X15. [get_installation_token] accepts the status 201 and no other: on
    201 it returns the [token] key of the answer and prints nothing; on any
    other status, 200 with a token in the body included, it returns [None]
    and prints one line that carries the body of the answer. Either way it
    has sent one request. *)
Theorem get_installation_token_only_on_201 (app_jwt : string)
    (installation_id : pyval) (resp : httpx.Response) (w : world) :
  github (installation_token_request app_jwt installation_id) = inl resp ->
  outbound (snd (get_installation_token github app_jwt installation_id w))
    = (outbound w ++ [installation_token_request app_jwt installation_id])%list
  /\ (httpx.status_code resp = 201 ->
      fst (get_installation_token github app_jwt installation_id w)
        = Return (httpx.token (httpx.json resp))
      /\ stdout (snd (get_installation_token github app_jwt installation_id w))
         = stdout w)
  /\ (httpx.status_code resp <> 201 ->
      fst (get_installation_token github app_jwt installation_id w) = Return None
      /\ stdout (snd (get_installation_token github app_jwt installation_id w))
         = (stdout w ++ [("Error getting installation token: "
                          ++ httpx.text resp)%string])%list).
Proof.
  intros Hresp. rewrite get_installation_token_run. cbv zeta. rewrite Hresp.
  destruct (Z.eqb_spec (httpx.status_code resp) 201) as [H201|Hne].
  - split; [reflexivity|]. split.
    + intros _. split; reflexivity.
    + intros Hne. contradiction.
  - split; [reflexivity|]. split.
    + intros H201. contradiction.
    + intros _. split; reflexivity.
Qed.

(** X16. Without an installation token there is no repositories request:
    when the token request is answered with a status other than 201, or
    with 201 and no (or an empty) token, [list_installation_repos] fails
    with HTTP 400 and has sent the token request only. *)
Theorem list_installation_repos_without_token (app_jwt : string)
    (installation_id : pyval) (resp : httpx.Response) (w : world) :
  github (installation_token_request app_jwt installation_id) = inl resp ->
  httpx.status_code resp <> 201
  \/ truthy_str (httpx.token (httpx.json resp)) = None ->
  fst (list_installation_repos github app_jwt installation_id w)
    = Raise (HTTPException 400 "Failed to obtain installation token.")
  /\ outbound (snd (list_installation_repos github app_jwt installation_id w))
     = (outbound w ++ [installation_token_request app_jwt installation_id])%list.
Proof.
  intros Hresp Hfail. rewrite list_installation_repos_run.
  rewrite get_installation_token_run. cbv zeta. rewrite Hresp.
  destruct (Z.eqb_spec (httpx.status_code resp) 201) as [H201|Hne].
  - destruct Hfail as [Hfail|Hfail]; [contradiction|].
    rewrite Hfail. split; reflexivity.
  - split; reflexivity.
Qed.

(** X17. Once the installation token is obtained, the answer to the
    repositories request decides the outcome: a status other than 200 is
    passed on as an HTTP error of that same status with the body in its
    detail; a 200 answer yields its [repositories], or a [KeyError] when the
    key is absent. Two requests have been sent, the second with the token
    as bearer. *)
Theorem list_installation_repos_with_token (app_jwt : string)
    (installation_id : pyval) (resp listing : httpx.Response)
    (installation_token : string) (w : world) :
  github (installation_token_request app_jwt installation_id) = inl resp ->
  httpx.status_code resp = 201 ->
  truthy_str (httpx.token (httpx.json resp)) = Some installation_token ->
  github (repositories_request installation_token) = inl listing ->
  fst (list_installation_repos github app_jwt installation_id w)
    = (if Z.eqb (httpx.status_code listing) 200
       then match httpx.repositories (httpx.json listing) with
            | Some repositories => Return repositories
            | None => Raise (KeyError "repositories")
            end
       else Raise (HTTPException (httpx.status_code listing)
                     ("Error fetching repositories: " ++ httpx.text listing)))
  /\ outbound (snd (list_installation_repos github app_jwt installation_id w))
     = (outbound w ++ [installation_token_request app_jwt installation_id;
                       repositories_request installation_token])%list.
Proof.
  intros Hresp H201 Htok Hlisting. rewrite list_installation_repos_run.
  rewrite get_installation_token_run. cbv zeta.
  rewrite Hresp, H201. cbn [Z.eqb Pos.eqb]. rewrite Htok, Hlisting.
  destruct (Z.eqb (httpx.status_code listing) 200); cbn [negb].
  - destruct (httpx.repositories (httpx.json listing)); split;
      try reflexivity; simpl; rewrite <- app_assoc; reflexivity.
  - split; [reflexivity|]. simpl. rewrite <- app_assoc. reflexivity.
Qed.
End InstallationRepos.

(** ** The order of sort keys *)

Lemma ascii_compare_N (a b : ascii) :
  Ascii.compare a b = N.compare (N_of_ascii a) (N_of_ascii b).
Proof. reflexivity. Qed.

Lemma string_compare_refl (s : string) : String.compare s s = Eq.
Proof.
  induction s as [|c s IH]; simpl; [reflexivity|].
  rewrite ascii_compare_N, N.compare_refl. exact IH.
Qed.

Lemma string_leb_refl (s : string) : String.leb s s = true.
Proof. unfold String.leb. rewrite string_compare_refl. reflexivity. Qed.

Lemma string_leb_trans (s1 s2 s3 : string) :
  String.leb s1 s2 = true -> String.leb s2 s3 = true -> String.leb s1 s3 = true.
Proof.
  unfold String.leb. revert s2 s3.
  induction s1 as [|c1 s1 IH]; intros [|c2 s2] [|c3 s3]; simpl;
    try reflexivity; try discriminate.
  rewrite !ascii_compare_N.
  destruct (N.compare_spec (N_of_ascii c1) (N_of_ascii c2)) as [H12|H12|H12];
    destruct (N.compare_spec (N_of_ascii c2) (N_of_ascii c3)) as [H23|H23|H23];
    try discriminate; intros Hle1 Hle2.
  - rewrite H12, H23, N.compare_refl. eapply IH; eassumption.
  - rewrite (proj2 (N.compare_lt_iff _ _)) by lia. reflexivity.
  - rewrite (proj2 (N.compare_lt_iff _ _)) by lia. reflexivity.
  - rewrite (proj2 (N.compare_lt_iff _ _)) by lia. reflexivity.
Qed.

Lemma key_le_refl (k : bool * string) : key_le k k = true.
Proof. destruct k as [[|] s]; apply string_leb_refl. Qed.

Lemma key_le_total (k1 k2 : bool * string) :
  key_le k1 k2 = true \/ key_le k2 k1 = true.
Proof.
  destruct k1 as [[|] s1], k2 as [[|] s2]; unfold key_le; simpl;
    auto using String.leb_total.
Qed.

Lemma key_le_trans (k1 k2 k3 : bool * string) :
  key_le k1 k2 = true -> key_le k2 k3 = true -> key_le k1 k3 = true.
Proof.
  destruct k1 as [[|] s1], k2 as [[|] s2], k3 as [[|] s3]; unfold key_le; simpl;
    try discriminate; try reflexivity; apply string_leb_trans.
Qed.

Lemma key_le_antisym (k1 k2 : bool * string) :
  key_le k1 k2 = true -> key_le k2 k1 = true -> k1 = k2.
Proof.
  destruct k1 as [[|] s1], k2 as [[|] s2]; unfold key_le; simpl;
    try discriminate; intros H1 H2; f_equal; apply String.leb_antisym; assumption.
Qed.

(** ** [sorted] *)

Section SortingProperties.
Context {A : Type}.
Variable key : A -> bool * string.

Local Abbreviation key_ordered := (fun x y => key_le (key x) (key y) = true).

Lemma sorted_insert_perm (x : A) (l : list A) :
  Permutation (x :: l) (sorted_insert key x l).
Proof.
  induction l as [|y l IH]; simpl; [reflexivity|].
  destruct (key_le (key x) (key y)); [reflexivity|].
  rewrite perm_swap. apply perm_skip. exact IH.
Qed.

Lemma py_sorted_perm (l : list A) : Permutation l (py_sorted key l).
Proof.
  induction l as [|x l IH]; simpl; [reflexivity|].
  rewrite <- sorted_insert_perm. apply perm_skip. exact IH.
Qed.

Lemma sorted_insert_sorted (x : A) (l : list A) :
  StronglySorted key_ordered l ->
  StronglySorted key_ordered (sorted_insert key x l).
Proof.
  induction 1 as [|y l Hsorted IH Hall]; simpl.
  - repeat constructor.
  - destruct (key_le (key x) (key y)) eqn:Hle.
    + constructor; [constructor; assumption|].
      constructor; [exact Hle|].
      eapply Forall_impl; [exact Hall|].
      intros z Hz. simpl in *. eapply key_le_trans; eassumption.
    + constructor; [exact IH|].
      rewrite <- sorted_insert_perm. constructor; [|exact Hall].
      destruct (key_le_total (key x) (key y)) as [H|H]; [congruence|exact H].
Qed.

Lemma py_sorted_sorted (l : list A) : StronglySorted key_ordered (py_sorted key l).
Proof.
  induction l as [|x l IH]; simpl; [constructor|].
  apply sorted_insert_sorted. exact IH.
Qed.

Lemma sorted_insert_stable (k : bool * string) (x : A) (l : list A) :
  filter (fun y => key y = k) (sorted_insert key x l)
  = filter (fun y => key y = k) (x :: l).
Proof.
  induction l as [|y l IH]; simpl; [reflexivity|].
  destruct (key_le (key x) (key y)) eqn:Hle; [reflexivity|].
  rewrite filter_cons, IH, !filter_cons.
  destruct (decide (key y = k)) as [Hy|Hy];
    destruct (decide (key x = k)) as [Hx|Hx]; try reflexivity.
  exfalso. rewrite Hx, <- Hy, key_le_refl in Hle. discriminate.
Qed.

Lemma py_sorted_stable (k : bool * string) (l : list A) :
  filter (fun y => key y = k) (py_sorted key l) = filter (fun y => key y = k) l.
Proof.
  induction l as [|x l IH]; simpl; [reflexivity|].
  rewrite sorted_insert_stable, !filter_cons, IH. reflexivity.
Qed.

Lemma StronglySorted_lookup (R : A -> A -> Prop) (l : list A) (i j : nat)
    (x y : A) :
  StronglySorted R l -> (i < j)%nat -> l !! i = Some x -> l !! j = Some y ->
  R x y.
Proof.
  intros Hsorted. revert i j.
  induction Hsorted as [|a l Hsorted IH Hall]; intros i j Hlt Hi Hj.
  - rewrite lookup_nil in Hi. discriminate.
  - destruct j as [|j]; [lia|]. destruct i as [|i]; simpl in Hi, Hj.
    + injection Hi as <-. rewrite Forall_forall in Hall. apply Hall.
      eapply list_elem_of_lookup_2. exact Hj.
    + eapply (IH i j); [lia|exact Hi|exact Hj].
Qed.
End SortingProperties.

(** ** The pages *)

Lemma get_installation_token_db github (app_jwt : string)
    (installation_id : pyval) (w : world) :
  INSTALLATIONS_DB (snd (get_installation_token github app_jwt installation_id w))
  = INSTALLATIONS_DB w.
Proof.
  rewrite get_installation_token_run. cbv zeta.
  destruct (github _) as [resp|e]; [|reflexivity].
  destruct (Z.eqb _ 201); reflexivity.
Qed.

Lemma list_installation_repos_db github (app_jwt : string)
    (installation_id : pyval) (w : world) :
  INSTALLATIONS_DB (snd (list_installation_repos github app_jwt installation_id w))
  = INSTALLATIONS_DB w.
Proof.
  rewrite list_installation_repos_run.
  pose proof (get_installation_token_db github app_jwt installation_id w) as Hdb.
  destruct (get_installation_token github app_jwt installation_id w)
    as [[tok|e] w1]; cbn [snd] in Hdb; [|exact Hdb].
  destruct (truthy_str tok) as [t|]; [|exact Hdb]. cbv zeta.
  destruct (github _) as [resp|e]; [|exact Hdb].
  destruct (negb _); [exact Hdb|].
  destruct (httpx.repositories _); exact Hdb.
Qed.

Lemma list_installation_repos_first_request github (app_jwt : string)
    (installation_id : pyval) (w : world) :
  exists rest,
    outbound (snd (list_installation_repos github app_jwt installation_id w))
    = (outbound w ++ installation_token_request app_jwt installation_id :: rest)%list.
Proof.
  rewrite list_installation_repos_run, get_installation_token_run. cbv zeta.
  destruct (github (installation_token_request app_jwt installation_id))
    as [resp|e]; [|exists []; reflexivity].
  destruct (Z.eqb _ 201).
  - destruct (truthy_str _) as [t|]; [|exists []; reflexivity].
    destruct (github (repositories_request t)) as [listing|e].
    + exists [repositories_request t].
      destruct (negb _); [|destruct (httpx.repositories _)];
        simpl; rewrite <- app_assoc; reflexivity.
    + exists [repositories_request t]. simpl. rewrite <- app_assoc. reflexivity.
  - exists []. reflexivity.
Qed.

Section PageProperties.
Variable hmac_sha256 : string -> jwt.header * jwt.payload -> string.
Variable github : httpx.Request -> httpx.Response + httpx_error.
Variable rs256_encode : app_payload -> string -> string.
Variable str_lower : string -> string.
Variable contents_json : httpx.Response -> list content_item.
Variable ACCOUNT_ID : string.

Local Abbreviation index := (index_page hmac_sha256 github rs256_encode ACCOUNT_ID).
Local Abbreviation list_files :=
  (list_files_in_repo github rs256_encode str_lower contents_json).
Local Abbreviation files_key := (contents_key str_lower).
Local Abbreviation app_jwt_at := (generate_app_jwt rs256_encode).

Lemma index_page_run (now : Q) (w : world) :
  index now w
  = match truthy_str (INSTALLATIONS_DB w !! ACCOUNT_ID) with
    | None =>
        (Return (InstallPage ACCOUNT_ID
                   (generate_state_token hmac_sha256 ACCOUNT_ID now)), w)
    | Some installation_id =>
        match list_installation_repos github (app_jwt_at now)
                (PyStr installation_id) w with
        | (Return repos, w') =>
            (Return (ReposPage ACCOUNT_ID installation_id
                       (py_join newline (map repo_option repos))), w')
        | (Raise e, w') => (Raise e, w')
        end
    end.
Proof.
  unfold index_page, bind at 1, db_get.
  destruct (truthy_str (INSTALLATIONS_DB w !! ACCOUNT_ID)) as [inst|];
    [|reflexivity].
  unfold bind at 1.
  destruct (list_installation_repos github _ (PyStr inst) w) as [[repos|e] w'];
    reflexivity.
Qed.

Lemma list_files_in_repo_run (owner repo : string) (installation_id : Z)
    (now : Q) (w : world) :
  list_files owner repo installation_id now w
  = match get_installation_token github (app_jwt_at now)
            (PyInt installation_id) w with
    | (Raise e, w1) => (Raise e, w1)
    | (Return installation_token, w1) =>
        match truthy_str installation_token with
        | None =>
            (Raise (HTTPException 400 "Failed to obtain installation token."), w1)
        | Some installation_token =>
            let req := contents_request owner repo installation_token in
            match github req with
            | inr e => (Raise (TransportError e), record_call req w1)
            | inl resp =>
                if negb (Z.eqb (httpx.status_code resp) 200)
                then (Raise (HTTPException (httpx.status_code resp)
                               ("Error fetching repo contents: "
                                ++ httpx.text resp)),
                      record_call req w1)
                else (Return (FilesPage owner repo
                                (map render_item
                                   (py_sorted files_key (contents_json resp)))),
                      record_call req w1)
            end
        end
    end.
Proof.
  unfold list_files_in_repo, bind at 1.
  destruct (get_installation_token github _ (PyInt installation_id) w)
    as [[installation_token|e] w1]; [|reflexivity].
  destruct (truthy_str installation_token) as [tok|]; [|reflexivity].
  unfold bind, client_get, client_request.
  fold (contents_request owner repo tok). cbv zeta.
  destruct (github (contents_request owner repo tok)) as [resp|e]; [|reflexivity].
  destruct (negb _); reflexivity.
Qed.

(** What a files page was made from. *)
Lemma list_files_in_repo_Return (owner repo : string) (installation_id : Z)
    (now : Q) (w : world) (page : HTMLResponse) :
  fst (list_files owner repo installation_id now w) = Return page ->
  exists installation_token resp,
    github (contents_request owner repo installation_token) = inl resp
    /\ httpx.status_code resp = 200
    /\ page = FilesPage owner repo
                (map render_item (py_sorted files_key (contents_json resp))).
Proof.
  rewrite list_files_in_repo_run.
  destruct (get_installation_token github _ (PyInt installation_id) w)
    as [[installation_token|e] w1]; [|discriminate].
  destruct (truthy_str installation_token) as [tok|]; [|discriminate].
  cbv zeta.
  destruct (github (contents_request owner repo tok)) as [resp|e] eqn:Hresp;
    [|discriminate].
  destruct (Z.eqb_spec (httpx.status_code resp) 200) as [H200|Hne];
    cbn [negb fst]; [|discriminate].
  intros [= <-]. exists tok, resp. repeat split; assumption.
Qed.

(** X18. The rows of a files page are the entries of the contents answer,
    each once, in the stable order of the key
    [(type != "dir", name.lower())]: the sequence is a permutation of the
    answer, it is ascending in the key, and entries with equal keys keep the
    order they had in the answer. *)
Theorem list_files_in_repo_rows_sorted (owner repo : string)
    (installation_id : Z) (now : Q) (w : world) (page : HTMLResponse) :
  fst (list_files owner repo installation_id now w) = Return page ->
  exists installation_token resp entries,
    github (contents_request owner repo installation_token) = inl resp
    /\ page = FilesPage owner repo (map render_item entries)
    /\ Permutation (contents_json resp) entries
    /\ StronglySorted (fun x y => key_le (files_key x) (files_key y) = true)
         entries
    /\ (forall k, filter (fun x => files_key x = k) entries
                  = filter (fun x => files_key x = k) (contents_json resp)).
Proof.
  intros Hpage.
  apply list_files_in_repo_Return in Hpage as (tok & resp & Hresp & _ & ->).
  exists tok, resp, (py_sorted files_key (contents_json resp)).
  split; [exact Hresp|]. split; [reflexivity|]. split; [apply py_sorted_perm|].
  split; [apply py_sorted_sorted|]. intros k. apply py_sorted_stable.
Qed.

Lemma render_item_folder (item : content_item) :
  row_icon (render_item item) = FolderIcon <-> fst (files_key item) = false.
Proof.
  unfold render_item, contents_key. simpl.
  destruct (String.eqb (item_type item) "dir"); simpl; split;
    congruence.
Qed.

(** X19. On a files page the directories come first: no row with the file
    icon stands before a row with the folder icon. *)
Theorem list_files_in_repo_directories_first (owner repo : string)
    (installation_id : Z) (now : Q) (w : world) (owner' repo' : string)
    (files : list file_row) (i j : nat) (earlier later : file_row) :
  fst (list_files owner repo installation_id now w)
    = Return (FilesPage owner' repo' files) ->
  (i < j)%nat ->
  files !! i = Some earlier ->
  files !! j = Some later ->
  row_icon later = FolderIcon ->
  row_icon earlier = FolderIcon.
Proof.
  intros Hpage Hlt Hi Hj Hfolder.
  apply list_files_in_repo_Return in Hpage as (tok & resp & _ & _ & Hpage).
  injection Hpage as _ _ ->.
  rewrite list_lookup_fmap in Hi, Hj.
  destruct (py_sorted files_key (contents_json resp) !! i) as [x|] eqn:Hx;
    [|discriminate].
  destruct (py_sorted files_key (contents_json resp) !! j) as [y|] eqn:Hy;
    [|discriminate].
  injection Hi as <-. injection Hj as <-.
  apply render_item_folder. apply render_item_folder in Hfolder.
  pose proof (StronglySorted_lookup _ _ i j x y
                (py_sorted_sorted files_key (contents_json resp)) Hlt Hx Hy)
    as Hle.
  simpl in Hle. unfold key_le in Hle. rewrite Hfolder in Hle.
  destruct (fst (files_key x)); [discriminate|reflexivity].
Qed.

(** X20. The failures of [list_files_in_repo]: without an installation
    token (a status other than 201, or no token in the answer) it fails with
    HTTP 400 after the token request alone; with a token, a contents answer
    of a status other than 200 is passed on as an HTTP error of that same
    status with the body in its detail. *)
Theorem list_files_in_repo_failures (owner repo : string) (installation_id : Z)
    (now : Q) (w : world) (resp : httpx.Response) :
  github (installation_token_request (app_jwt_at now) (PyInt installation_id))
    = inl resp ->
  (httpx.status_code resp <> 201
   \/ truthy_str (httpx.token (httpx.json resp)) = None ->
   fst (list_files owner repo installation_id now w)
     = Raise (HTTPException 400 "Failed to obtain installation token.")
   /\ outbound (snd (list_files owner repo installation_id now w))
      = (outbound w ++ [installation_token_request (app_jwt_at now)
                          (PyInt installation_id)])%list)
  /\ (forall installation_token contents,
        httpx.status_code resp = 201 ->
        truthy_str (httpx.token (httpx.json resp)) = Some installation_token ->
        github (contents_request owner repo installation_token) = inl contents ->
        httpx.status_code contents <> 200 ->
        fst (list_files owner repo installation_id now w)
        = Raise (HTTPException (httpx.status_code contents)
                   ("Error fetching repo contents: " ++ httpx.text contents))).
Proof.
  intros Hresp. rewrite !list_files_in_repo_run, get_installation_token_run.
  cbv zeta. rewrite Hresp. split.
  - intros Hfail.
    destruct (Z.eqb_spec (httpx.status_code resp) 201) as [H201|Hne].
    + destruct Hfail as [Hfail|Hfail]; [contradiction|].
      rewrite Hfail. split; reflexivity.
    + split; reflexivity.
  - intros tok contents H201 Htok Hcontents Hne.
    rewrite H201. cbn [Z.eqb Pos.eqb]. rewrite Htok, Hcontents.
    apply Z.eqb_neq in Hne. rewrite Hne. reflexivity.
Qed.

(** X21. For an account without an installation (no entry, or an empty
    one) the index page is the install page: it sends nothing, leaves the
    world as it was, and carries a state token that decodes to the process's
    account at every clock reading before [int(now) + 300]. *)
Theorem index_page_offers_install (now : Q) (w : world) :
  INSTALLATIONS_DB w !! ACCOUNT_ID = None
  \/ INSTALLATIONS_DB w !! ACCOUNT_ID = Some "" ->
  exists state_token,
    index now w = (Return (InstallPage ACCOUNT_ID state_token), w)
    /\ (forall later,
          (later < inject_Z (py_int now + 300))%Q ->
          decode_state_token hmac_sha256 state_token later = Return ACCOUNT_ID).
Proof.
  intros Hnone. apply truthy_str_None_iff in Hnone.
  rewrite index_page_run, Hnone. eexists. split; [reflexivity|].
  intros later Hfresh. rewrite decode_generate.
  rewrite Qle_bool_false by exact Hfresh. reflexivity.
Qed.

(** X22. Only the callback writes the directory: the index page, the
    files page, the repositories listing and the installation-token request
    leave it as it was, whatever the authority answers. *)
Theorem pages_leave_directory_unchanged (now : Q) (w : world)
    (owner repo app_jwt : string) (installation_id : Z) (id : pyval) :
  INSTALLATIONS_DB (snd (index now w)) = INSTALLATIONS_DB w
  /\ INSTALLATIONS_DB (snd (list_files owner repo installation_id now w))
     = INSTALLATIONS_DB w
  /\ INSTALLATIONS_DB (snd (list_installation_repos github app_jwt id w))
     = INSTALLATIONS_DB w
  /\ INSTALLATIONS_DB (snd (get_installation_token github app_jwt id w))
     = INSTALLATIONS_DB w.
Proof.
  split; [|split; [|split]].
  - rewrite index_page_run.
    destruct (truthy_str _) as [inst|]; [|reflexivity].
    pose proof (list_installation_repos_db github (app_jwt_at now)
                  (PyStr inst) w) as Hdb.
    destruct (list_installation_repos github _ (PyStr inst) w) as [[repos|e] w'];
      exact Hdb.
  - rewrite list_files_in_repo_run.
    pose proof (get_installation_token_db github (app_jwt_at now)
                  (PyInt installation_id) w) as Hdb.
    destruct (get_installation_token github _ (PyInt installation_id) w)
      as [[tok|e] w1]; cbn [snd] in Hdb; [|exact Hdb].
    destruct (truthy_str tok) as [t|]; [|exact Hdb]. cbv zeta.
    destruct (github _) as [resp|e]; [|exact Hdb].
    destruct (negb _); exact Hdb.
  - apply list_installation_repos_db.
  - apply get_installation_token_db.
Qed.
End PageProperties.

(** ** From the install page to the repositories page *)

Section Flow.
Variable hmac_sha256 : string -> jwt.header * jwt.payload -> string.
Variables github0 github1 github2 : httpx.Request -> httpx.Response + httpx_error.
Variable rs256_encode : app_payload -> string -> string.
Variable ACCOUNT_ID : string.

(** A linked account stays linked: callbacks never remove an entry of the
    directory nor empty it. *)
Lemma run_callbacks_keeps_link (steps : list later_callback) (w : world)
    (key value : string) :
  INSTALLATIONS_DB w !! key = Some value -> value <> "" ->
  exists value',
    INSTALLATIONS_DB (run_callbacks hmac_sha256 steps w) !! key = Some value'
    /\ value' <> "".
Proof.
  revert w value. induction steps as [|[[github request] now] rest IH];
    intros w value Hlook Hne; simpl.
  - exists value. split; assumption.
  - destruct (github_callback_directory hmac_sha256 github request now w)
      as [[Hdb _] | (inst & st & account & Hinst & _ & _ & _ & Hdb)].
    + apply (IH _ value); [rewrite Hdb; exact Hlook|exact Hne].
    + destruct (decide (account = key)) as [<-|Hother].
      * apply (IH _ inst); [rewrite Hdb; apply lookup_insert_eq|].
        apply truthy_str_Some_iff in Hinst. tauto.
      * apply (IH _ value); [|exact Hne].
        rewrite Hdb, lookup_insert_ne by exact Hother. exact Hlook.
Qed.

(** X23. The flow closes: when the index page has offered the install
    page, and a callback that presents the state token of that page
    completes, the directory maps the process's account to the callback's
    installation; and from then on, whatever callbacks follow, the account
    stays mapped to a non-empty installation id and the index page no
    longer offers the install page: it starts by requesting an installation
    token for the installation stored at that moment. *)
Theorem completed_callback_switches_index_page (now0 now1 now2 : Q)
    (w w0 w1 : world) (account_id installation_id : string)
    (state_token : jwt.token) (request : Request) (r : Response)
    (later : list later_callback) :
  index_page hmac_sha256 github0 rs256_encode ACCOUNT_ID now0 w
    = (Return (InstallPage account_id state_token), w0) ->
  query_state request = Some state_token ->
  truthy_str (query_installation_id request) = Some installation_id ->
  github_callback hmac_sha256 github1 request now1 w0 = (Return r, w1) ->
  INSTALLATIONS_DB w1 !! ACCOUNT_ID = Some installation_id
  /\ exists stored,
       stored <> ""
       /\ INSTALLATIONS_DB (run_callbacks hmac_sha256 later w1) !! ACCOUNT_ID
          = Some stored
       /\ (forall a t,
             fst (index_page hmac_sha256 github2 rs256_encode ACCOUNT_ID now2
                    (run_callbacks hmac_sha256 later w1))
             <> Return (InstallPage a t))
       /\ (exists rest,
             outbound (snd (index_page hmac_sha256 github2 rs256_encode
                              ACCOUNT_ID now2
                              (run_callbacks hmac_sha256 later w1)))
             = (outbound (run_callbacks hmac_sha256 later w1)
                ++ installation_token_request
                     (generate_app_jwt rs256_encode now2) (PyStr stored)
                   :: rest)%list).
Proof.
  intros Hpage Hstate Hinst Hrun.
  (* the install page carries a token generated for ACCOUNT_ID *)
  assert (state_token = generate_state_token hmac_sha256 ACCOUNT_ID now0) as ->.
  { rewrite index_page_run in Hpage.
    destruct (truthy_str (INSTALLATIONS_DB w !! ACCOUNT_ID)) as [inst|].
    - destruct (list_installation_repos github0 _ (PyStr inst) w)
        as [[repos|e] w']; discriminate.
    - congruence. }
  (* the callback wrote the entry of ACCOUNT_ID *)
  assert (INSTALLATIONS_DB w1 !! ACCOUNT_ID = Some installation_id) as Hdb.
  { destruct (github_callback_directory hmac_sha256 github1 request now1 w0)
      as [[_ [e He]] | (i & s & a & Hi & Hs & Hd & _ & Hdb)];
      rewrite Hrun in *; cbn [fst snd] in *; [discriminate|].
    rewrite Hstate in Hs. simpl in Hs. injection Hs as <-.
    rewrite decode_generate in Hd.
    destruct (Qle_bool _ now1); [discriminate|]. injection Hd as <-.
    rewrite Hdb. rewrite Hinst in Hi. injection Hi as <-.
    apply lookup_insert_eq. }
  split; [exact Hdb|].
  (* later callbacks keep the entry *)
  destruct (run_callbacks_keeps_link later w1 ACCOUNT_ID installation_id Hdb)
    as (stored & Hstored & Hne).
  { apply truthy_str_Some_iff in Hinst. tauto. }
  exists stored. split; [exact Hne|]. split; [exact Hstored|].
  rewrite index_page_run, Hstored.
  rewrite (proj2 (truthy_str_Some_iff (Some stored) stored))
    by (split; [reflexivity|exact Hne]).
  destruct (list_installation_repos_first_request github2
              (generate_app_jwt rs256_encode now2) (PyStr stored)
              (run_callbacks hmac_sha256 later w1))
    as [rest Hrest].
  destruct (list_installation_repos github2 _ (PyStr stored) _)
    as [[repos|e] w']; cbn [fst snd] in *.
  - split; [discriminate|]. exists rest. exact Hrest.
  - split; [discriminate|]. exists rest. exact Hrest.
Qed.
End Flow.

(** ** The further properties at concrete inputs *)

(** The scenario token, accepted at 1010. *)
Lemma decode_state_token_accepts_only_genuine_witness :
  exists h p,
    generate_state_token example_hmac "acct-1" 1000
    = jwt.Compact h p (example_hmac JWT_SECRET (h, p))
    /\ jwt.alg h = "HS256"
    /\ jwt.account_id p = Some "acct-1"
    /\ (forall e, jwt.exp p = Some e -> (1010 < inject_Z e)%Q).
Proof.
  apply (decode_state_token_accepts_only_genuine example_hmac
           (generate_state_token example_hmac "acct-1" 1000) 1010 "acct-1").
  vm_compute. reflexivity.
Defined.

(** The scenario token, expired at 1300. *)
Lemma decode_state_token_expired_only_genuine_witness :
  exists h p e,
    generate_state_token example_hmac "acct-1" 1000
    = jwt.Compact h p (example_hmac JWT_SECRET (h, p))
    /\ jwt.alg h = "HS256"
    /\ jwt.exp p = Some e
    /\ (inject_Z e <= 1300)%Q.
Proof.
  apply (decode_state_token_expired_only_genuine example_hmac
           (generate_state_token example_hmac "acct-1" 1000) 1300).
  vm_compute. reflexivity.
Defined.

(** The scenario token: expired at 1300, hence at 1400; accepted at 1200,
    hence at 1010. *)
Lemma decode_state_token_window_witness :
  decode_state_token example_hmac
    (generate_state_token example_hmac "acct-1" 1000) 1300
  = Raise (HTTPException 400 "State token has expired.")
  /\ decode_state_token example_hmac
       (generate_state_token example_hmac "acct-1" 1000) 1400
     = Raise (HTTPException 400 "State token has expired.")
  /\ decode_state_token example_hmac
       (generate_state_token example_hmac "acct-1" 1000) 1200
     = Return "acct-1"
  /\ decode_state_token example_hmac
       (generate_state_token example_hmac "acct-1" 1000) 1010
     = Return "acct-1".
Proof.
  assert (decode_state_token example_hmac
            (generate_state_token example_hmac "acct-1" 1000) 1300
          = Raise (HTTPException 400 "State token has expired.")) as Hexpired
    by (vm_compute; reflexivity).
  assert (decode_state_token example_hmac
            (generate_state_token example_hmac "acct-1" 1000) 1200
          = Return "acct-1") as Haccepted by (vm_compute; reflexivity).
  split; [exact Hexpired|]. split.
  - apply (decode_state_token_window example_hmac
             (generate_state_token example_hmac "acct-1" 1000) 1300 1400);
      [vm_compute; discriminate|exact Hexpired].
  - split; [exact Haccepted|].
    apply (decode_state_token_window example_hmac
             (generate_state_token example_hmac "acct-1" 1000) 1010 1200);
      [vm_compute; discriminate|exact Haccepted].
Defined.

(** The listing [7; 999] against the claimed integer 999. *)
Lemma user_owns_installation_integers_exact_witness :
  fst (user_owns_installation
         (approving_github [{| httpx.id := PyInt 7 |}; {| httpx.id := PyInt 999 |}])
         "u-tok" (PyInt 999) empty_world)
    = Return (bool_decide (999 ∈ [7; 999]))
  /\ fst (user_owns_installation
            (approving_github [{| httpx.id := PyInt 7 |}; {| httpx.id := PyInt 999 |}])
            "u-tok" (PyStr (pretty 999)) empty_world)
     = Return (bool_decide (999 ∈ [7; 999])).
Proof.
  apply (user_owns_installation_integers_exact
           (approving_github [{| httpx.id := PyInt 7 |}; {| httpx.id := PyInt 999 |}])
           "u-tok" 999
           {| httpx.status_code := 200; httpx.text := "";
              httpx.json :=
                {| httpx.access_token := None;
                   httpx.installations :=
                     Some [{| httpx.id := PyInt 7 |}; {| httpx.id := PyInt 999 |}];
                   httpx.token := None;
                   httpx.repositories := None |} |}
           [7; 999] empty_world); reflexivity.
Defined.

(** The listing [7; 999] and its reversal. *)
Lemma user_owns_installation_loop_order_witness :
  user_owns_installation_loop
    [{| httpx.id := PyInt 7 |}; {| httpx.id := PyInt 999 |}] (PyStr "999")
  = user_owns_installation_loop
      [{| httpx.id := PyInt 999 |}; {| httpx.id := PyInt 7 |}] (PyStr "999").
Proof.
  apply (user_owns_installation_loop_order
           [{| httpx.id := PyInt 7 |}; {| httpx.id := PyInt 999 |}]
           [{| httpx.id := PyInt 999 |}; {| httpx.id := PyInt 7 |}] (PyStr "999")).
  apply perm_swap.
Defined.

(** A token endpoint that answers 500 with a credential in the body. *)
Lemma exchange_code_for_user_token_result_witness :
  exists r,
    exchange_code_for_user_token erring_token_github "abc"
      (generate_state_token example_hmac "acct-1" 1000) empty_world
    = (Return r,
       record_call
         (access_token_request "abc"
            (generate_state_token example_hmac "acct-1" 1000)) empty_world)
    /\ r <> Some ""
    /\ (forall s, r = Some s <-> Some "u-tok" = Some s /\ s <> "")
    /\ (r = None <-> Some "u-tok" = None \/ Some "u-tok" = Some "").
Proof.
  apply (exchange_code_for_user_token_result erring_token_github "abc"
           (generate_state_token example_hmac "acct-1" 1000)
           {| httpx.status_code := 500; httpx.text := "";
              httpx.json := {| httpx.access_token := Some "u-tok";
                               httpx.installations := None;
                               httpx.token := None;
                               httpx.repositories := None |} |}
           empty_world).
  reflexivity.
Defined.

(** The scenario callback at the token's expiry: nothing is sent. *)
Lemma callback_rejected_state_sends_nothing_witness :
  github_callback example_hmac (approving_github listing_999)
    (scenario_request "abc") 1300 empty_world
  = (Raise (HTTPException 400 "State token has expired."), empty_world).
Proof.
  apply (callback_rejected_state_sends_nothing example_hmac
           (approving_github listing_999) (scenario_request "abc") 1300
           empty_world "abc" "999"
           (generate_state_token example_hmac "acct-1" 1000)).
  - reflexivity.
  - reflexivity.
  - reflexivity.
  - vm_compute. reflexivity.
Defined.

(** The scenario callback on the empty directory. *)
Lemma callback_keeps_values_nonempty_witness :
  db_values_nonempty (INSTALLATIONS_DB empty_world)
  /\ db_values_nonempty
       (INSTALLATIONS_DB
          (snd (github_callback example_hmac (approving_github listing_999)
                  (scenario_request "abc") 1010 empty_world))).
Proof.
  assert (db_values_nonempty (INSTALLATIONS_DB empty_world)) as Hempty.
  { intros key value Hlook. simpl in Hlook. rewrite lookup_empty in Hlook.
    discriminate. }
  split; [exact Hempty|].
  apply (callback_keeps_values_nonempty example_hmac
           (approving_github listing_999) (scenario_request "abc") 1010
           empty_world Hempty).
Defined.

(** The end-to-end scenario, from the issued token to the directory. *)
Lemma issued_token_links_account_witness :
  fst (github_callback example_hmac (approving_github listing_999)
         (scenario_request "abc") 1010 empty_world)
    = Return (RedirectResponse "/setup")
  /\ INSTALLATIONS_DB
       (snd (github_callback example_hmac (approving_github listing_999)
               (scenario_request "abc") 1010 empty_world)) !! "acct-1"
     = Some "999"
  /\ (forall key, key <> "acct-1" ->
        INSTALLATIONS_DB
          (snd (github_callback example_hmac (approving_github listing_999)
                  (scenario_request "abc") 1010 empty_world)) !! key
        = INSTALLATIONS_DB empty_world !! key).
Proof.
  apply (issued_token_links_account example_hmac (approving_github listing_999)
           "acct-1" 1000 1010 (scenario_request "abc") "abc" "999" "u-tok"
           empty_world).
  - reflexivity.
  - reflexivity.
  - reflexivity.
  - vm_compute. reflexivity.
  - intros w'. reflexivity.
  - intros w'. reflexivity.
Defined.

(** Two callbacks in a row, for [acct-1] and for [acct-2]. *)
Lemma callbacks_last_write_wins_witness :
  INSTALLATIONS_DB
    (snd (github_callback example_hmac
            (approving_github [{| httpx.id := PyInt 7 |}]) second_request 1020
            (snd (github_callback example_hmac (approving_github listing_999)
                    (scenario_request "abc") 1010 empty_world))))
  = <["acct-2" := "7"]> (<["acct-1" := "999"]> (INSTALLATIONS_DB empty_world)).
Proof.
  apply (callbacks_last_write_wins example_hmac
           (approving_github listing_999)
           (approving_github [{| httpx.id := PyInt 7 |}])
           (scenario_request "abc") second_request 1010 1020
           empty_world
           (snd (github_callback example_hmac (approving_github listing_999)
                   (scenario_request "abc") 1010 empty_world))
           (snd (github_callback example_hmac
                   (approving_github [{| httpx.id := PyInt 7 |}]) second_request
                   1020
                   (snd (github_callback example_hmac
                           (approving_github listing_999)
                           (scenario_request "abc") 1010 empty_world))))
           (RedirectResponse "/setup") (RedirectResponse "/setup")
           (generate_state_token example_hmac "acct-1" 1000)
           (generate_state_token example_hmac "acct-2" 1005)
           "acct-1" "acct-2" "999" "7");
    vm_compute; reflexivity.
Defined.

(** A token endpoint that answers 200, with a token in the body. *)
Lemma get_installation_token_only_on_201_witness :
  fst (get_installation_token (installation_github 200 200) "app-jwt"
         (PyInt 999) empty_world) = Return None
  /\ stdout (snd (get_installation_token (installation_github 200 200) "app-jwt"
                    (PyInt 999) empty_world))
     = ["Error getting installation token: token-body"].
Proof.
  destruct (get_installation_token_only_on_201 (installation_github 200 200)
              "app-jwt" (PyInt 999)
              {| httpx.status_code := 200; httpx.text := "token-body";
                 httpx.json := {| httpx.access_token := None;
                                  httpx.installations := None;
                                  httpx.token := Some "i-tok";
                                  httpx.repositories := None |} |}
              empty_world eq_refl) as (_ & _ & Hother).
  apply Hother. discriminate.
Defined.

(** A token endpoint that answers 403. *)
Lemma list_installation_repos_without_token_witness :
  fst (list_installation_repos (installation_github 403 200) "app-jwt"
         (PyInt 999) empty_world)
    = Raise (HTTPException 400 "Failed to obtain installation token.")
  /\ outbound (snd (list_installation_repos (installation_github 403 200)
                      "app-jwt" (PyInt 999) empty_world))
     = (outbound empty_world
        ++ [installation_token_request "app-jwt" (PyInt 999)])%list.
Proof.
  apply (list_installation_repos_without_token (installation_github 403 200)
           "app-jwt" (PyInt 999)
           {| httpx.status_code := 403; httpx.text := "token-body";
              httpx.json := {| httpx.access_token := None;
                               httpx.installations := None;
                               httpx.token := Some "i-tok";
                               httpx.repositories := None |} |}
           empty_world eq_refl).
  left. discriminate.
Defined.

(** A repositories endpoint that answers 404. *)
Lemma list_installation_repos_with_token_witness :
  fst (list_installation_repos (installation_github 201 404) "app-jwt"
         (PyInt 999) empty_world)
  = Raise (HTTPException 404 "Error fetching repositories: body").
Proof.
  apply (list_installation_repos_with_token (installation_github 201 404)
           "app-jwt" (PyInt 999)
           {| httpx.status_code := 201; httpx.text := "token-body";
              httpx.json := {| httpx.access_token := None;
                               httpx.installations := None;
                               httpx.token := Some "i-tok";
                               httpx.repositories := None |} |}
           {| httpx.status_code := 404; httpx.text := "body";
              httpx.json := {| httpx.access_token := None;
                               httpx.installations := None;
                               httpx.token := None;
                               httpx.repositories :=
                                 Some [{| httpx.full_name := "o/r" |}] |} |}
           "i-tok" empty_world); reflexivity.
Defined.

(** The files page of the example contents. *)
Lemma list_files_in_repo_rows_sorted_witness :
  exists installation_token resp entries,
    installation_github 201 200 (contents_request "o" "r" installation_token)
    = inl resp
    /\ FilesPage "o" "r"
         (map render_item
            (py_sorted (contents_key example_lower) example_contents))
       = FilesPage "o" "r" (map render_item entries)
    /\ Permutation (example_contents_json resp) entries
    /\ StronglySorted
         (fun x y => key_le (contents_key example_lower x)
                       (contents_key example_lower y) = true) entries
    /\ (forall k,
          filter (fun x => contents_key example_lower x = k) entries
          = filter (fun x => contents_key example_lower x = k)
              (example_contents_json resp)).
Proof.
  apply (list_files_in_repo_rows_sorted (installation_github 201 200)
           example_rs256 example_lower example_contents_json
           "o" "r" 999 1010 empty_world).
  vm_compute. reflexivity.
Defined.

(** In the files page of the example contents the rows at positions 0 and
    1 are the folders [Docs] and [src]. *)
Lemma list_files_in_repo_directories_first_witness :
  map render_item (py_sorted (contents_key example_lower) example_contents) !! 1%nat
    = Some {| row_icon := FolderIcon;
              row_href := "https://github.com/o/r/tree/main/src";
              row_name := "src"; row_size := "" |}
  /\ map render_item (py_sorted (contents_key example_lower) example_contents)
       !! 0%nat
     = Some {| row_icon := FolderIcon;
               row_href := "https://github.com/o/r/tree/main/Docs";
               row_name := "Docs"; row_size := "" |}
  /\ row_icon {| row_icon := FolderIcon;
                 row_href := "https://github.com/o/r/tree/main/Docs";
                 row_name := "Docs"; row_size := "" |} = FolderIcon.
Proof.
  split; [vm_compute; reflexivity|]. split; [vm_compute; reflexivity|].
  apply (list_files_in_repo_directories_first (installation_github 201 200)
           example_rs256 example_lower example_contents_json
           "o" "r" 999 1010 empty_world "o" "r"
           (map render_item
              (py_sorted (contents_key example_lower) example_contents))
           0 1
           {| row_icon := FolderIcon;
              row_href := "https://github.com/o/r/tree/main/Docs";
              row_name := "Docs"; row_size := "" |}
           {| row_icon := FolderIcon;
              row_href := "https://github.com/o/r/tree/main/src";
              row_name := "src"; row_size := "" |}).
  - vm_compute. reflexivity.
  - lia.
  - vm_compute. reflexivity.
  - vm_compute. reflexivity.
  - reflexivity.
Defined.

(** A token endpoint that answers 403, and a contents endpoint that answers
    404. *)
Lemma list_files_in_repo_failures_witness :
  fst (list_files_in_repo (installation_github 403 200) example_rs256
         example_lower example_contents_json "o" "r" 999 1010 empty_world)
    = Raise (HTTPException 400 "Failed to obtain installation token.")
  /\ fst (list_files_in_repo (installation_github 201 404) example_rs256
            example_lower example_contents_json "o" "r" 999 1010 empty_world)
     = Raise (HTTPException 404 "Error fetching repo contents: body").
Proof.
  split.
  - destruct (list_files_in_repo_failures (installation_github 403 200)
                example_rs256 example_lower example_contents_json
                "o" "r" 999 1010 empty_world
                {| httpx.status_code := 403; httpx.text := "token-body";
                   httpx.json := {| httpx.access_token := None;
                                    httpx.installations := None;
                                    httpx.token := Some "i-tok";
                                    httpx.repositories := None |} |}
                eq_refl) as [Hnone _].
    apply Hnone. left. discriminate.
  - destruct (list_files_in_repo_failures (installation_github 201 404)
                example_rs256 example_lower example_contents_json
                "o" "r" 999 1010 empty_world
                {| httpx.status_code := 201; httpx.text := "token-body";
                   httpx.json := {| httpx.access_token := None;
                                    httpx.installations := None;
                                    httpx.token := Some "i-tok";
                                    httpx.repositories := None |} |}
                eq_refl) as [_ Hsome].
    apply (Hsome "i-tok"
             {| httpx.status_code := 404; httpx.text := "body";
                httpx.json := {| httpx.access_token := None;
                                 httpx.installations := None;
                                 httpx.token := None;
                                 httpx.repositories :=
                                   Some [{| httpx.full_name := "o/r" |}] |} |});
      try reflexivity.
    discriminate.
Defined.

(** The index page on the empty directory. *)
Lemma index_page_offers_install_witness :
  exists state_token,
    index_page example_hmac timeout_github example_rs256 "acct-1" 1000
      empty_world
    = (Return (InstallPage "acct-1" state_token), empty_world)
    /\ (forall later,
          (later < inject_Z (py_int 1000 + 300))%Q ->
          decode_state_token example_hmac state_token later = Return "acct-1").
Proof.
  apply (index_page_offers_install example_hmac timeout_github example_rs256
           "acct-1" 1000 empty_world).
  left. reflexivity.
Defined.

(** Install page at 1000, callback for installation 999 at 1010, a second
    callback with the same token for installation 7 at 1020, index page
    again at 1100. *)
Lemma completed_callback_switches_index_page_witness :
  INSTALLATIONS_DB
    (snd (github_callback example_hmac (approving_github listing_999)
            (scenario_request "abc") 1010 empty_world)) !! "acct-1"
  = Some "999"
  /\ INSTALLATIONS_DB
       (run_callbacks example_hmac
          [(approving_github [{| httpx.id := PyInt 7 |}], relink_request,
            1020%Q)]
          (snd (github_callback example_hmac (approving_github listing_999)
                  (scenario_request "abc") 1010 empty_world))) !! "acct-1"
     = Some "7"
  /\ exists stored,
       stored <> ""
       /\ INSTALLATIONS_DB
            (run_callbacks example_hmac
               [(approving_github [{| httpx.id := PyInt 7 |}], relink_request,
                 1020%Q)]
               (snd (github_callback example_hmac (approving_github listing_999)
                       (scenario_request "abc") 1010 empty_world))) !! "acct-1"
          = Some stored
       /\ (forall a t,
             fst (index_page example_hmac (installation_github 201 200)
                    example_rs256 "acct-1" 1100
                    (run_callbacks example_hmac
                       [(approving_github [{| httpx.id := PyInt 7 |}],
                         relink_request, 1020%Q)]
                       (snd (github_callback example_hmac
                               (approving_github listing_999)
                               (scenario_request "abc") 1010 empty_world))))
             <> Return (InstallPage a t)).
Proof.
  destruct (completed_callback_switches_index_page example_hmac
              timeout_github (approving_github listing_999)
              (installation_github 201 200) example_rs256 "acct-1"
              1000 1010 1100 empty_world empty_world
              (snd (github_callback example_hmac (approving_github listing_999)
                      (scenario_request "abc") 1010 empty_world))
              "acct-1" "999"
              (generate_state_token example_hmac "acct-1" 1000)
              (scenario_request "abc") (RedirectResponse "/setup")
              [(approving_github [{| httpx.id := PyInt 7 |}], relink_request,
                1020%Q)])
    as (Hdb & stored & Hne & Hstored & Hpage & _).
  - reflexivity.
  - reflexivity.
  - reflexivity.
  - vm_compute. reflexivity.
  - split; [exact Hdb|]. split; [vm_compute; reflexivity|].
    exists stored. split; [exact Hne|].
    split; [exact Hstored|exact Hpage].
Defined.

(** ** The pages of the scenario *)

(** The files page of the example contents lists [Docs], [src], [b.txt],
    [README.md], sizes on the files only. *)
Example files_page_of_example_contents :
  fst (list_files_in_repo (installation_github 201 200) example_rs256
         example_lower example_contents_json "o" "r" 999 1010 empty_world)
  = Return
      (FilesPage "o" "r"
         [ {| row_icon := FolderIcon;
              row_href := "https://github.com/o/r/tree/main/Docs";
              row_name := "Docs"; row_size := "" |};
           {| row_icon := FolderIcon;
              row_href := "https://github.com/o/r/tree/main/src";
              row_name := "src"; row_size := "" |};
           {| row_icon := FileIcon;
              row_href := "https://github.com/o/r/blob/main/b.txt";
              row_name := "b.txt"; row_size := "(12 bytes)" |};
           {| row_icon := FileIcon;
              row_href := "https://github.com/o/r/blob/main/README.md";
              row_name := "README.md"; row_size := "(40 bytes)" |} ]).
Proof. vm_compute. reflexivity. Qed.

(** ** Joining and splitting lines *)

Lemma has_char_app (c : ascii) (s1 s2 : string) :
  has_char c (s1 ++ s2) = has_char c s1 || has_char c s2.
Proof.
  induction s1 as [|c1 s1 IH]; simpl; [reflexivity|].
  rewrite IH. apply orb_assoc.
Qed.

Lemma py_split_nonempty (sep : ascii) (s : string) : py_split sep s <> [].
Proof.
  destruct s as [|c s]; simpl; [discriminate|].
  destruct (Ascii.eqb c sep); [discriminate|].
  destruct (py_split sep s); discriminate.
Qed.

Lemma py_split_no_sep (sep : ascii) (s : string) :
  has_char sep s = false -> py_split sep s = [s].
Proof.
  induction s as [|c s IH]; simpl; [reflexivity|].
  intros H. apply orb_false_iff in H as [Hc Hs].
  rewrite Hc, (IH Hs). reflexivity.
Qed.

Lemma py_split_app_sep (sep : ascii) (s rest : string) :
  has_char sep s = false ->
  py_split sep (s ++ String sep rest) = s :: py_split sep rest.
Proof.
  induction s as [|c s IH]; simpl.
  - intros _. rewrite Ascii.eqb_refl. reflexivity.
  - intros H. apply orb_false_iff in H as [Hc Hs].
    rewrite Hc, (IH Hs). reflexivity.
Qed.

(** Splitting at the separator undoes joining with it, for a non-empty list
    of strings that do not contain it. *)
Lemma py_split_join (sep : ascii) (l : list string) :
  l <> [] ->
  (forall s, s ∈ l -> has_char sep s = false) ->
  py_split sep (py_join (String sep "") l) = l.
Proof.
  induction l as [|s l IH]; [contradiction|]. intros _ Hall.
  destruct l as [|s' l].
  - simpl. apply py_split_no_sep. apply Hall. left.
  - change (py_join (String sep "") (s :: s' :: l))
      with (s ++ String sep (py_join (String sep "") (s' :: l))).
    rewrite py_split_app_sep by (apply Hall; left).
    rewrite IH; [reflexivity|discriminate|].
    intros x Hx. apply Hall. right. exact Hx.
Qed.

Lemma repo_option_no_newline (repo : httpx.repository) :
  has_char "010"%char (httpx.full_name repo) = false ->
  has_char "010"%char (repo_option repo) = false.
Proof.
  intros H. unfold repo_option, dquote.
  rewrite !has_char_app, H. reflexivity.
Qed.

(** ** The index page of a linked account *)

Section LinkedIndexPage.
Variable hmac_sha256 : string -> jwt.header * jwt.payload -> string.
Variable github : httpx.Request -> httpx.Response + httpx_error.
Variable rs256_encode : app_payload -> string -> string.
Variable ACCOUNT_ID : string.

Local Abbreviation index := (index_page hmac_sha256 github rs256_encode ACCOUNT_ID).
Local Abbreviation app_jwt_at := (generate_app_jwt rs256_encode).

(** X24. For a linked account the index page does not fall back to the
    install page when the installation can no longer be used: if the
    installation-token request for the stored installation is answered with
    a status other than 201, the page fails with HTTP 400 and the directory
    entry stays. *)
Theorem index_page_stale_installation (now : Q) (w : world)
    (installation_id : string) (resp : httpx.Response) :
  INSTALLATIONS_DB w !! ACCOUNT_ID = Some installation_id ->
  installation_id <> "" ->
  github (installation_token_request (app_jwt_at now) (PyStr installation_id))
    = inl resp ->
  httpx.status_code resp <> 201 ->
  fst (index now w)
    = Raise (HTTPException 400 "Failed to obtain installation token.")
  /\ INSTALLATIONS_DB (snd (index now w)) !! ACCOUNT_ID = Some installation_id.
Proof.
  intros Hdb Hne Hresp Hstatus.
  rewrite index_page_run, Hdb.
  rewrite (proj2 (truthy_str_Some_iff (Some installation_id) installation_id))
    by (split; [reflexivity|exact Hne]).
  rewrite list_installation_repos_run, get_installation_token_run.
  cbv zeta. rewrite Hresp.
  apply Z.eqb_neq in Hstatus. rewrite Hstatus. cbn.
  split; [reflexivity|exact Hdb].
Qed.

(** X25. For a linked account whose installation token is granted (201,
    non-empty token) and whose repositories request is answered with 200,
    the index page is the repositories page of the account and its stored
    installation, and its options text reads back, split at the newlines,
    as one line [<option value="name">name</option>] per repository of the
    answer, in the order of the answer (for names without a newline); for an
    answer without repositories the options text is empty. *)
Theorem index_page_lists_repositories (now : Q) (w : world)
    (installation_id installation_token : string)
    (resp listing : httpx.Response) (repos : list httpx.repository) :
  INSTALLATIONS_DB w !! ACCOUNT_ID = Some installation_id ->
  installation_id <> "" ->
  github (installation_token_request (app_jwt_at now) (PyStr installation_id))
    = inl resp ->
  httpx.status_code resp = 201 ->
  truthy_str (httpx.token (httpx.json resp)) = Some installation_token ->
  github (repositories_request installation_token) = inl listing ->
  httpx.status_code listing = 200 ->
  httpx.repositories (httpx.json listing) = Some repos ->
  (forall repo, repo ∈ repos ->
     has_char "010"%char (httpx.full_name repo) = false) ->
  exists repo_options,
    fst (index now w)
      = Return (ReposPage ACCOUNT_ID installation_id repo_options)
    /\ (repos = [] -> repo_options = "")
    /\ (repos <> [] ->
        py_split "010"%char repo_options
        = map (fun repo =>
                 "<option value=" ++ String "034"%char ""
                   ++ httpx.full_name repo ++ String "034"%char "" ++ ">"
                   ++ httpx.full_name repo ++ "</option>")
            repos).
Proof.
  intros Hdb Hne Hresp H201 Htok Hlisting H200 Hrepos Hnames.
  rewrite index_page_run, Hdb.
  rewrite (proj2 (truthy_str_Some_iff (Some installation_id) installation_id))
    by (split; [reflexivity|exact Hne]).
  rewrite list_installation_repos_run, get_installation_token_run.
  cbv zeta. rewrite Hresp, H201. cbn [Z.eqb Pos.eqb].
  rewrite Htok, Hlisting, H200, Hrepos. cbn [negb Z.eqb Pos.eqb fst].
  eexists. split; [reflexivity|]. split.
  - intros ->. reflexivity.
  - intros Hsome. apply py_split_join.
    + destruct repos; [contradiction|discriminate].
    + intros line Hline. apply list_elem_of_fmap in Hline as (repo & -> & Hrepo).
      apply repo_option_no_newline. apply Hnames. exact Hrepo.
Qed.
End LinkedIndexPage.

(** A linked account whose token request is answered with 403. *)
Lemma index_page_stale_installation_witness :
  fst (index_page example_hmac (installation_github 403 200) example_rs256
         "acct-1" 1100
         (snd (github_callback example_hmac (approving_github listing_999)
                 (scenario_request "abc") 1010 empty_world)))
  = Raise (HTTPException 400 "Failed to obtain installation token.").
Proof.
  apply (index_page_stale_installation example_hmac
           (installation_github 403 200) example_rs256 "acct-1" 1100
           (snd (github_callback example_hmac (approving_github listing_999)
                   (scenario_request "abc") 1010 empty_world))
           "999"
           {| httpx.status_code := 403; httpx.text := "token-body";
              httpx.json := {| httpx.access_token := None;
                               httpx.installations := None;
                               httpx.token := Some "i-tok";
                               httpx.repositories := None |} |}).
  - vm_compute. reflexivity.
  - discriminate.
  - reflexivity.
  - discriminate.
Defined.

(** A linked account with two repositories, [o/r] and [o/s]. *)
Lemma index_page_lists_repositories_witness :
  exists repo_options,
    fst (index_page example_hmac two_repos_github example_rs256
           "acct-1" 1100
           (snd (github_callback example_hmac (approving_github listing_999)
                   (scenario_request "abc") 1010 empty_world)))
      = Return (ReposPage "acct-1" "999" repo_options)
    /\ py_split "010"%char repo_options
       = [ "<option value=" ++ String "034"%char "" ++ "o/r"
             ++ String "034"%char "" ++ ">o/r</option>";
           "<option value=" ++ String "034"%char "" ++ "o/s"
             ++ String "034"%char "" ++ ">o/s</option>" ].
Proof.
  destruct (index_page_lists_repositories example_hmac
              two_repos_github example_rs256 "acct-1" 1100
              (snd (github_callback example_hmac (approving_github listing_999)
                      (scenario_request "abc") 1010 empty_world))
              "999" "i-tok"
              {| httpx.status_code := 201; httpx.text := "token-body";
                 httpx.json := {| httpx.access_token := None;
                                  httpx.installations := None;
                                  httpx.token := Some "i-tok";
                                  httpx.repositories := None |} |}
              {| httpx.status_code := 200; httpx.text := "body";
                 httpx.json := {| httpx.access_token := None;
                                  httpx.installations := None;
                                  httpx.token := None;
                                  httpx.repositories :=
                                    Some [{| httpx.full_name := "o/r" |};
                                          {| httpx.full_name := "o/s" |}] |} |}
              [{| httpx.full_name := "o/r" |}; {| httpx.full_name := "o/s" |}])
    as (repo_options & Hpage & _ & Hlines).
  - vm_compute. reflexivity.
  - discriminate.
  - reflexivity.
  - reflexivity.
  - reflexivity.
  - reflexivity.
  - reflexivity.
  - reflexivity.
  - intros repo Hrepo.
    apply elem_of_cons in Hrepo as [->|Hrepo]; [reflexivity|].
    apply elem_of_cons in Hrepo as [->|Hrepo]; [reflexivity|].
    inversion Hrepo.
  - exists repo_options. split; [exact Hpage|]. apply Hlines. discriminate.
Defined.

(** The scenario callback with a signed state token that has [exp] 1300 and
    no [account_id], at 1010. *)
Lemma callback_state_without_account_id_witness :
  github_callback example_hmac (approving_github listing_999)
    {| query_code := Some "abc";
       query_installation_id := Some "999";
       query_state :=
         Some (jwt.encode example_hmac
                 {| jwt.account_id := None; jwt.exp := Some 1300 |}
                 JWT_SECRET JWT_ALGORITHM) |}
    1010 empty_world
  = (Raise (KeyError "account_id"), empty_world)
  /\ ~ is_http_error
         (fst (github_callback example_hmac (approving_github listing_999)
                 {| query_code := Some "abc";
                    query_installation_id := Some "999";
                    query_state :=
                      Some (jwt.encode example_hmac
                              {| jwt.account_id := None; jwt.exp := Some 1300 |}
                              JWT_SECRET JWT_ALGORITHM) |}
                 1010 empty_world)).
Proof.
  apply (callback_state_without_account_id example_hmac
           (approving_github listing_999)
           {| query_code := Some "abc";
              query_installation_id := Some "999";
              query_state :=
                Some (jwt.encode example_hmac
                        {| jwt.account_id := None; jwt.exp := Some 1300 |}
                        JWT_SECRET JWT_ALGORITHM) |}
           1010 empty_world "abc" "999" 1300).
  - reflexivity.
  - reflexivity.
  - reflexivity.
  - vm_compute. reflexivity.
Defined.
